(** * servee.frontendadmin.insert

    A shallow embedding of [servee/frontendadmin/insert.py]: the [BaseInsert]
    capability interface and the [ModelInsert] plugin (template chains, query
    set, URL patterns and the admin sub-views), with the properties of the
    module proved over the embedding.

    Python calls are modelled by their outcome (a value or a raised
    exception); the views thread the table of the insert's model explicitly.
    The host framework (Django) appears through the small part of its
    interface that the module calls: [unquote] and [render_to_response] are
    parameters, query sets are the descriptions of the manager calls that
    build them, and a table is a list of rows whose keys are signed 64-bit
    integers.  Deleting an object follows the model's foreign keys to
    itself: rows that reference the object go with it or lose the
    reference.

    Embedded: [BaseInsert.__init__], [base_url] and the six stubs;
    [ModelInsert.__init__], [get_object], [queryset], [items], [get_items],
    [get_urls] with its local [wrap], [urls] and the five views;
    [ModelInsert.nav_title], [render], [list_url] and [render_url], with the
    URL reverser, the template loader and the two settings as parameters.
    Left out: [BaseInsert.nav_title] and [BaseInsert.title] (they call
    [servee.utils]) and [BaseInsert.get_urls]. *)

From Stdlib Require Import String Ascii List ZArith Bool Lia.
Import ListNotations.
Open Scope list_scope.
Open Scope string_scope.

(** ** Python outcomes *)

Module Py.

(** The exception classes that the module names or that its calls raise. *)
Inductive Exc : Type :=
| NotImplementedError
| AttributeError
| TypeError
| ValueError
| ValidationError
| DoesNotExist
| MultipleObjectsReturned
| OverflowError
| TemplateDoesNotExist.

Definition exc_eqb (a b : Exc) : bool :=
  match a, b with
  | NotImplementedError, NotImplementedError
  | AttributeError, AttributeError
  | TypeError, TypeError
  | ValueError, ValueError
  | ValidationError, ValidationError
  | DoesNotExist, DoesNotExist
  | MultipleObjectsReturned, MultipleObjectsReturned
  | OverflowError, OverflowError
  | TemplateDoesNotExist, TemplateDoesNotExist => true
  | _, _ => false
  end.

(** What a call does: it returns a value or raises. *)
Inductive Outcome (A : Type) : Type :=
| Return (a : A)
| Raise (e : Exc).

Arguments Return {A} a.
Arguments Raise {A} e.

Definition bind {A B : Type} (c : Outcome A) (k : A -> Outcome B) : Outcome B :=
  match c with
  | Return a => k a
  | Raise e => Raise e
  end.

(** [try: body except (e1, ..., en): handler]. *)
Definition try_except {A : Type} (body : Outcome A) (caught : list Exc)
    (handler : Outcome A) : Outcome A :=
  match body with
  | Return a => Return a
  | Raise e => if existsb (exc_eqb e) caught then handler else Raise e
  end.

(** The values that the stubs of [BaseInsert] hand back: an exception class
    is an ordinary first-class value when it is returned, not raised. *)
Inductive Value : Type :=
| VNone
| VStr (s : string)
| VClass (e : Exc).

(** [fmt % args] for a format string whose directives are [%s] (and the
    literal [%%]), with string arguments.  Too few arguments, or arguments
    left over, raise [TypeError]; any other directive raises [ValueError]. *)
Fixpoint format (fmt : string) (args : list string) : Outcome string :=
  match fmt with
  | EmptyString =>
      match args with
      | [] => Return EmptyString
      | _ :: _ => Raise TypeError
      end
  | String "%" (String "s" rest) =>
      match args with
      | [] => Raise TypeError
      | a :: args' => bind (format rest args') (fun r => Return (a ++ r))
      end
  | String "%" (String "%" rest) =>
      bind (format rest args) (fun r => Return (String "%" r))
  | String "%" _ => Raise ValueError
  | String c rest =>
      bind (format rest args) (fun r => Return (String c r))
  end.

(** Truth value of a tuple-or-[None] argument: [None] and [()] are falsy. *)
Definition truthy {A : Type} (v : option (list A)) : bool :=
  match v with
  | Some (_ :: _) => true
  | _ => false
  end.

(** [v or ()] for such a value. *)
Definition or_empty {A : Type} (v : option (list A)) : list A :=
  match v with
  | Some (x :: l) => x :: l
  | _ => []
  end.

(** A validation result turned into an outcome: [None] raises [e]. *)
Definition or_raise {A : Type} (e : Exc) (v : option A) : Outcome A :=
  match v with
  | Some a => Return a
  | None => Raise e
  end.

(** [s.lower()] on ASCII letters. *)
Definition lower_char (c : ascii) : ascii :=
  let n := nat_of_ascii c in
  if andb (65 <=? n)%nat (n <=? 90)%nat then ascii_of_nat (n + 32) else c.

Fixpoint lower (s : string) : string :=
  match s with
  | EmptyString => EmptyString
  | String c rest => String (lower_char c) (lower rest)
  end.

(** ASCII letter classes and [c.upper()]. *)
Definition is_upper (c : ascii) : bool :=
  let n := nat_of_ascii c in andb (65 <=? n)%nat (n <=? 90)%nat.

Definition is_lower (c : ascii) : bool :=
  let n := nat_of_ascii c in andb (97 <=? n)%nat (n <=? 122)%nat.

Definition upper_char (c : ascii) : ascii :=
  if is_lower c then ascii_of_nat (nat_of_ascii c - 32) else c.

(** [s.title()] on ASCII: a letter that follows a letter is lowered, a
    letter that does not is raised, and any other character ends the word. *)
Fixpoint title_from (previous_is_cased : bool) (s : string) : string :=
  match s with
  | EmptyString => EmptyString
  | String c rest =>
      if is_lower c then
        String (if previous_is_cased then c else upper_char c)
          (title_from true rest)
      else if is_upper c then
        String (if previous_is_cased then lower_char c else c)
          (title_from true rest)
      else String c (title_from false rest)
  end.

Definition title (s : string) : string := title_from false s.

End Py.

Import Py.

Notation "x <- c ;; k" := (bind c (fun x => k))
  (at level 61, c at next level, right associativity).

(** ** The host framework, as far as the module calls it *)

Module Django.

(** *** The object-relational layer *)

(** A stored object of the insert's model: its primary key and its other
    columns. *)
Record Instance : Type := {
  pk : Z;
  columns : list (string * string)
}.

(** The table of the model. *)
Definition Table : Type := list Instance.

(** The key column holds signed 64-bit integers: a key outside that range
    cannot be stored, and cannot be bound to a query either. *)
Definition fits_column (k : Z) : bool :=
  ((- 2 ^ 63 <=? k) && (k <? 2 ^ 63))%Z.

(** The primary-key constraint of the database is the invariant
    [unique_pk]: no two rows share a key, and every key fits the column. *)
Definition unique_pk (tbl : Table) : Prop :=
  NoDup (map pk tbl) /\ Forall (fun o => fits_column (pk o) = true) tbl.

Definition has_pk (k : Z) (o : Instance) : bool := (pk o =? k)%Z.

(** A query set is lazy: it is the description of the manager calls that
    built it, and reads the table only when it is evaluated. *)
Inductive QuerySet : Type :=
| AllObjects
| Filter (keep : Instance -> bool) (qs : QuerySet)
| OrderBy (fields : list string) (qs : QuerySet).

(** [qs.order_by( *fields )]. *)
Definition order_by (fields : list string) (qs : QuerySet) : QuerySet :=
  OrderBy fields qs.

(** The objects that a query set selects, listed as the table has them.
    This is the selection only: the order in which an ordered query set
    yields its objects is not modelled, and the statements below use
    [objects] for membership and for counting the matches of a key, as
    [get] does after it has dropped the ordering. *)
Fixpoint objects (qs : QuerySet) (tbl : Table) : list Instance :=
  match qs with
  | AllObjects => tbl
  | Filter keep qs' => filter keep (objects qs' tbl)
  | OrderBy _ qs' => objects qs' tbl
  end.

(** [qs.get(pk=k)]: a key that does not fit the key column cannot be bound
    to the query and raises [OverflowError] before any row is read;
    otherwise the single match, [DoesNotExist] when there is none,
    [MultipleObjectsReturned] when there are several. *)
Definition get (qs : QuerySet) (k : Z) (tbl : Table) : Outcome Instance :=
  if fits_column k then
    match filter (has_pk k) (objects qs tbl) with
    | [] => Raise DoesNotExist
    | [o] => Return o
    | _ :: _ :: _ => Raise MultipleObjectsReturned
    end
  else Raise OverflowError.

(** A model field; [to_python] validates a raw value, and [None] stands
    for its [ValidationError]. *)
Record Field : Type := {
  to_python : string -> option Z
}.

Record Manager : Type := {
  get_query_set : QuerySet
}.

(** What deleting an object does to a row that references it. *)
Inductive OnDelete : Type :=
| CASCADE
| SET_NULL.

(** A foreign key of the model to itself: the column that holds the key
    of the referenced object, and what a deletion does through it. *)
Record ForeignKey : Type := {
  fk_column : string;
  on_delete : OnDelete
}.

(** [model._meta]. *)
Record Options : Type := {
  app_label : string;
  module_name : string;
  pk_field : Field;
  self_references : list ForeignKey
}.

Record Model : Type := {
  _meta : Options;
  _default_manager : Manager
}.

(** *** Deleting an object *)

(** A column value holds the key [k]. *)
Definition points_to (m : Model) (k : Z) (value : string) : bool :=
  match to_python (pk_field (_meta m)) value with
  | Some k' => (k' =? k)%Z
  | None => false
  end.

(** The row [r] references the key [k] through the foreign key [fk]. *)
Definition refers_to (m : Model) (fk : ForeignKey) (k : Z) (r : Instance)
    : bool :=
  existsb (fun c => String.eqb (fk_column fk) (fst c)
                    && points_to m k (snd c))
    (columns r).

Definition references (m : Model) (k : Z) (r : Instance) : bool :=
  existsb (fun fk => refers_to m fk k r) (self_references (_meta m)).

(** No row of the table references the object. *)
Definition unreferenced (m : Model) (o : Instance) (tbl : Table) : bool :=
  forallb (fun r => negb (references m (pk o) r)) tbl.

Definition is_cascade (fk : ForeignKey) : bool :=
  match on_delete fk with
  | CASCADE => true
  | SET_NULL => false
  end.

Definition doomed_key (doomed : list Z) (r : Instance) : bool :=
  existsb (Z.eqb (pk r)) doomed.

(** The row references one of the keys to delete through a cascading
    foreign key. *)
Definition cascades_from (m : Model) (doomed : list Z) (r : Instance)
    : bool :=
  existsb (fun fk => is_cascade fk
                     && existsb (fun k => refers_to m fk k r) doomed)
    (self_references (_meta m)).

(** The collector: the keys to delete, grown by the rows that cascade from
    them, round after round (a table of [n] rows is closed after [n]
    rounds). *)
Fixpoint collect (m : Model) (rounds : nat) (doomed : list Z) (tbl : Table)
    : list Z :=
  match rounds with
  | O => doomed
  | S n =>
      collect m n
        (doomed ++
         map pk (filter (fun r => cascades_from m doomed r
                                  && negb (doomed_key doomed r)) tbl))%list
        tbl
  end.

(** A surviving row loses the references to deleted objects that it holds
    through a nulling foreign key. *)
Definition set_null (m : Model) (doomed : list Z) (r : Instance)
    : Instance :=
  {| pk := pk r;
     columns :=
       filter
         (fun c =>
            negb (existsb
                    (fun fk => negb (is_cascade fk)
                               && (String.eqb (fk_column fk) (fst c)
                                   && existsb
                                        (fun k => points_to m k (snd c))
                                        doomed))
                    (self_references (_meta m))))
         (columns r) |}.

(** [obj.delete()] for an object of the model [m]: the object's row leaves
    the table, with the rows that cascade from it; rows that reference a
    deleted object through a nulling foreign key stay, without the
    reference.  (Rows of other models are outside this table.) *)
Definition delete (m : Model) (o : Instance) (tbl : Table) : Table :=
  let doomed := collect m (length tbl) [pk o] tbl in
  map (set_null m doomed) (filter (fun r => negb (doomed_key doomed r)) tbl).

(** Code that runs against the table: it ends in an outcome and leaves a
    table behind. *)
Definition Action (A : Type) : Type := Table -> Outcome A * Table.

Definition pure {A : Type} (a : A) : Action A := fun tbl => (Return a, tbl).

Definition raise {A : Type} (e : Exc) : Action A := fun tbl => (Raise e, tbl).

Definition and_then {A B : Type} (c : Action A) (k : A -> Action B)
    : Action B :=
  fun tbl =>
    match c tbl with
    | (Return a, tbl') => k a tbl'
    | (Raise e, tbl') => (Raise e, tbl')
    end.

(** A call that only reads the table. *)
Definition reading {A : Type} (f : Table -> Outcome A) : Action A :=
  fun tbl => (f tbl, tbl).

(** A call that writes the table and returns [None]. *)
Definition writing (f : Table -> Table) : Action unit :=
  fun tbl => (Return tt, f tbl).

(** *** Requests, responses and URL patterns *)

Record Response : Type := {
  content : string;
  status_code : Z
}.

(** [HttpResponse(content)]. *)
Definition HttpResponse (body : string) : Response :=
  {| content := body; status_code := 200 |}.

Section Routing.

Variable HttpRequest : Type.

(** A view callable, called with the request and the positional arguments
    captured by the URL pattern; it may read and change the table. *)
Definition View : Type := HttpRequest -> list string -> Action Response.

(** The admin site: [admin_view] wraps a view with the site's checks. *)
Record AdminSite : Type := {
  name : string;
  admin_view : View -> View
}.

Record RegexURLPattern : Type := {
  regex : string;
  callback : View;
  url_name : string
}.

(** [url(regex, view, name=name)]. *)
Definition url (r : string) (view : View) (n : string) : RegexURLPattern :=
  {| regex := r; callback := view; url_name := n |}.

(** [patterns(prefix, *args)]: the prefix only applies to views given by
    name, so pattern objects pass through. *)
Definition patterns (prefix : string) (args : list RegexURLPattern)
    : list RegexURLPattern :=
  args.

(** [update_wrapper(wrapper, wrapped)] copies the name and documentation of
    [wrapped] and returns [wrapper]. *)
Definition update_wrapper (wrapper wrapped : View) : View := wrapper.

(** Calling a bound method of one positional parameter (the request) and of
    two (the request and an object id): a wrong number of arguments is a
    [TypeError] and touches nothing. *)
Definition method1 (f : HttpRequest -> Action Response) : View :=
  fun request args =>
    match args with
    | [] => f request
    | _ :: _ => raise TypeError
    end.

Definition method2 (f : HttpRequest -> string -> Action Response) : View :=
  fun request args =>
    match args with
    | [object_id] => f request object_id
    | _ => raise TypeError
    end.

End Routing.

Arguments name {HttpRequest} _.
Arguments admin_view {HttpRequest} _ _.
Arguments regex {HttpRequest} _.
Arguments callback {HttpRequest} _.
Arguments url_name {HttpRequest} _.
Arguments url {HttpRequest} r view n.
Arguments patterns {HttpRequest} prefix args.
Arguments update_wrapper {HttpRequest} wrapper wrapped.
Arguments method1 {HttpRequest} f.
Arguments method2 {HttpRequest} f.

End Django.

Import Django.

Notation "x <~ c ;; k" := (and_then c (fun x => k))
  (at level 61, c at next level, right associativity).

(** ** [class BaseInsert(object)] *)

Module BaseInsert.

Section Insert.

Variable HttpRequest : Type.

(** An instance: the name of its class and the attribute set by
    [__init__]. *)
Record t : Type := {
  class_name : string;
  admin_site : AdminSite HttpRequest
}.

Definition __init__ (cls : string) (site : AdminSite HttpRequest) : t :=
  {| class_name := cls; admin_site := site |}.

Definition base_url (self : t) : string := lower (class_name self).

Definition items (self : t) : Outcome Value :=
  Return (VClass NotImplementedError).

Definition get_items (self : t) : Outcome Value :=
  Return (VClass NotImplementedError).

Definition add_item (self : t) : Outcome Value :=
  Return (VClass NotImplementedError).

Definition edit_item (self : t) (item : Value) : Outcome Value :=
  Return (VClass NotImplementedError).

Definition content (self : t) : Outcome Value :=
  Return (VClass NotImplementedError).

Definition render_url (self : t) : Outcome Value :=
  Return (VClass NotImplementedError).

End Insert.

Arguments class_name {HttpRequest} _.
Arguments admin_site {HttpRequest} _.
Arguments __init__ {HttpRequest} cls site.
Arguments base_url {HttpRequest} self.
Arguments items {HttpRequest} self.
Arguments get_items {HttpRequest} self.
Arguments add_item {HttpRequest} self.
Arguments edit_item {HttpRequest} self item.
Arguments content {HttpRequest} self.
Arguments render_url {HttpRequest} self.

End BaseInsert.

(** ** [class ModelInsert(BaseInsert)] *)

Module ModelInsert.

Section Insert.

Variable HttpRequest : Type.

(** [django.contrib.admin.util.unquote]. *)
Variable unquote : string -> string.

(** A subclass: its name and its class attributes ([ordering = None] and
    [model = None] unless the subclass sets them). *)
Record cls : Type := {
  __name__ : string;
  cls_ordering : option (list string);
  cls_model : option Model
}.

(** An instance that [__init__] has built: [self.model] is a model (with
    [model = None] the first line of [__init__] raises), [self.ordering] is
    the class attribute, the five template attributes are those assigned by
    [__init__]. *)
Record t : Type := {
  base : BaseInsert.t HttpRequest;
  ordering : option (list string);
  model : Model;
  item_panel_template : list string;
  item_display_template : list string;
  item_detail_template : list string;
  item_list_template : list string;
  item_render_template : list string
}.

(** The values of a template context of the views. *)
Inductive ContextValue : Type :=
| CInsert (insert : t)
| CObject (obj : option Instance).

Definition Context : Type := list (string * ContextValue).

(** [render_to_response(templates, dictionary,
    context_instance=RequestContext(request))]: the first template of the
    chain that exists is rendered (the rendering may read the table). *)
Variable render_to_response :
  list string -> Context -> HttpRequest -> Table -> Outcome Response.

Definition __init__ (c : cls) (site : AdminSite HttpRequest) : Outcome t :=
  match cls_model c with
  | None => Raise AttributeError
  | Some m =>
      let app := app_label (_meta m) in
      let module := module_name (_meta m) in
      p1 <- format "servee/wysiwyg/insert/%s/%s/_panel.html" [app; module];;
      p2 <- format "servee/wysiwyg/insert/%s/_panel.html" [app];;
      let panel := [p1; p2; "servee/wysiwyg/insert/_panelt.html"] in
      d1 <- format "servee/wysiwyg/insert/%s/%s/_list.html" [app; module];;
      d2 <- format "servee/wysiwyg/insert/%s/_list.html" [app];;
      let display := [d1; d2; "servee/wysiwyg/insert/_item_list.html"] in
      t1 <- format "servee/wysiwyg/insert/%s/%s/_detail.html" [app; module];;
      t2 <- format "servee/wysiwyg/insert/%s/_detail.html" [app];;
      let detail := [t1; t2; "servee/wysiwyg/insert/_item_detail.html"] in
      l1 <- format "servee/wysiwyg/insert/%s/%s/_list.html" [app; module];;
      l2 <- format "servee/wysiwyg/insert/%s/_list.html" [app];;
      let list_ := [l1; l2; "servee/wysiwyg/insert/_item_list.html"] in
      r1 <- format "servee/wysiwyg/insert/%s/%s/_render.html" [app; module];;
      r2 <- format "servee/wysiwyg/insert/%s/_render.html" [app];;
      let render := [r1; r2; "servee/wysiwyg/insert/_item_render.html"] in
      Return {| base := BaseInsert.__init__ (__name__ c) site;
                ordering := cls_ordering c;
                model := m;
                item_panel_template := panel;
                item_display_template := display;
                item_detail_template := detail;
                item_list_template := list_;
                item_render_template := render |}
  end.

Definition queryset (self : t) (ordering_arg : option (list string))
    : QuerySet :=
  let qs := get_query_set (_default_manager (model self)) in
  let ordering_ :=
    if negb (truthy ordering_arg)
    then or_empty (ordering self)
    else or_empty ordering_arg in
  if truthy (Some ordering_) then order_by ordering_ qs else qs.

Definition get_object (self : t) (object_id : string) (tbl : Table)
    : Outcome (option Instance) :=
  let model_ := model self in
  try_except
    (object_id' <- or_raise ValidationError
                     (to_python (pk_field (_meta model_)) object_id);;
     obj <- get (queryset self None) object_id' tbl;;
     Return (Some obj))
    [DoesNotExist; ValidationError]
    (Return None).

Definition items (self : t) : QuerySet := queryset self None.

Definition get_items (self : t) : QuerySet := items self.

Definition panel_view (self : t) (request : HttpRequest) : Action Response :=
  reading (render_to_response (item_panel_template self)
             [("insert", CInsert self)] request).

Definition list_view (self : t) (request : HttpRequest) : Action Response :=
  reading (render_to_response (item_list_template self)
             [("insert", CInsert self)] request).

Definition detail_view (self : t) (request : HttpRequest)
    (object_id : string) : Action Response :=
  obj <~ reading (get_object self (unquote object_id));;
  reading (render_to_response (item_detail_template self)
             [("insert", CInsert self); ("object", CObject obj)] request).

Definition render_view (self : t) (request : HttpRequest)
    (object_id : string) : Action Response :=
  obj <~ reading (get_object self (unquote object_id));;
  reading (render_to_response (item_render_template self)
             [("insert", CInsert self); ("object", CObject obj)] request).

(** [obj.delete()] on the result of [get_object]: [None] has no attribute
    [delete]. *)
Definition delete_of (self : t) (obj : option Instance) : Action unit :=
  match obj with
  | None => raise AttributeError
  | Some o => writing (delete (model self) o)
  end.

Definition delete_view (self : t) (request : HttpRequest)
    (object_id : string) : Action Response :=
  obj <~ reading (get_object self (unquote object_id));;
  _ <~ delete_of self obj;;
  pure (HttpResponse "Deleted").

(** The local function [wrap] of [get_urls]. *)
Definition wrap (self : t) (view : View HttpRequest) : View HttpRequest :=
  let wrapper : View HttpRequest :=
    fun request args =>
      admin_view (BaseInsert.admin_site (base self)) view request args in
  update_wrapper wrapper view.

Definition get_urls (self : t) : Outcome (list (RegexURLPattern HttpRequest)) :=
  let info := [app_label (_meta (model self));
               module_name (_meta (model self))] in
  n_panel <- format "%s_%s_panel" info;;
  n_list <- format "%s_%s_list" info;;
  n_detail <- format "%s_%s_detail" info;;
  n_render <- format "%s_%s_render" info;;
  n_delete <- format "%s_%s_delete" info;;
  Return (patterns ""
    [ url "^panel/$" (wrap self (method1 (panel_view self))) n_panel;
      url "^list/$" (wrap self (method1 (list_view self))) n_list;
      url "^(.+)/detail/$" (wrap self (method2 (detail_view self))) n_detail;
      url "^(.+)/render/$" (wrap self (method2 (render_view self))) n_render;
      url "^(.+)/delete/$" (wrap self (method2 (delete_view self))) n_delete ]).

(** The property [urls]. *)
Definition urls (self : t) : Outcome (list (RegexURLPattern HttpRequest)) :=
  get_urls self.

(** Two expressions of the methods above, named for the statements: the
    query set of the model's default manager, and the primary key that an
    object id validates to ([None] when validation fails). *)
Definition default_query_set (self : t) : QuerySet :=
  get_query_set (_default_manager (model self)).

Definition pk_of (self : t) (object_id : string) : option Z :=
  to_python (pk_field (_meta (model self))) object_id.

Definition nav_title (self : t) : string :=
  title (module_name (_meta (model self))).

(** [django.core.urlresolvers.reverse(viewname, args=args)]. *)
Variable reverse : string -> list string -> Outcome string.

Definition list_url (self : t) : Outcome string :=
  viewname <- format "%s:%s_%s_list"
                [ name (BaseInsert.admin_site (base self));
                  app_label (_meta (model self));
                  module_name (_meta (model self)) ];;
  reverse viewname [].

Definition render_url (self : t) (object_id : string) : Outcome string :=
  viewname <- format "%s:%s_%s_render"
                [ name (BaseInsert.admin_site (base self));
                  app_label (_meta (model self));
                  module_name (_meta (model self)) ];;
  reverse viewname [object_id].

(** The values of the dictionary that [render] hands to the template. *)
Inductive RenderValue : Type :=
| RStr (s : string)
| RItem (item : Instance).

(** A loaded template: [t.render(dictionary)] (the rendering may read the
    table). *)
Definition Template : Type :=
  list (string * RenderValue) -> Table -> Outcome string.

(** [django.template.loader.get_template] loads one template by its name,
    and the settings [MEDIA_URL] and [STATIC_URL]. *)
Variable get_template : string -> Outcome Template.
Variable MEDIA_URL : string.
Variable STATIC_URL : string.

(** What a caller hands to [get_template]: a name, or (as [render] does) a
    list of names.  No loader finds a template for a list. *)
Inductive TemplateArgument : Type :=
| TemplateName (template_name : string)
| TemplateList (chain : list string).

Definition call_get_template (arg : TemplateArgument) : Outcome Template :=
  match arg with
  | TemplateName template_name => get_template template_name
  | TemplateList _ => Raise TemplateDoesNotExist
  end.

(** [render(item)]: [item] is a primary key, looked up with the default
    manager's [get]. *)
Definition render (self : t) (item : Z) (tbl : Table) : Outcome string :=
  item_ <- get (get_query_set (_default_manager (model self))) item tbl;;
  t_ <- call_get_template (TemplateList (item_render_template self));;
  t_ [ ("MEDIA_URL", RStr MEDIA_URL);
       ("STATIC_URL", RStr STATIC_URL);
       ("item", RItem item_) ] tbl.

End Insert.

Arguments base {HttpRequest} _.
Arguments ordering {HttpRequest} _.
Arguments model {HttpRequest} _.
Arguments item_panel_template {HttpRequest} _.
Arguments item_display_template {HttpRequest} _.
Arguments item_detail_template {HttpRequest} _.
Arguments item_list_template {HttpRequest} _.
Arguments item_render_template {HttpRequest} _.
Arguments CInsert {HttpRequest} insert.
Arguments CObject {HttpRequest} obj.
Arguments __init__ {HttpRequest} c site.
Arguments queryset {HttpRequest} self ordering_arg.
Arguments get_object {HttpRequest} self object_id tbl.
Arguments items {HttpRequest} self.
Arguments get_items {HttpRequest} self.
Arguments panel_view {HttpRequest} render_to_response self request.
Arguments list_view {HttpRequest} render_to_response self request.
Arguments detail_view {HttpRequest} unquote render_to_response self request
  object_id.
Arguments render_view {HttpRequest} unquote render_to_response self request
  object_id.
Arguments delete_view {HttpRequest} unquote self request object_id.
Arguments wrap {HttpRequest} self view.
Arguments get_urls {HttpRequest} unquote render_to_response self.
Arguments urls {HttpRequest} unquote render_to_response self.
Arguments default_query_set {HttpRequest} self.
Arguments pk_of {HttpRequest} self object_id.
Arguments nav_title {HttpRequest} self.
Arguments list_url {HttpRequest} reverse self.
Arguments render_url {HttpRequest} reverse self object_id.
Arguments render {HttpRequest} get_template MEDIA_URL STATIC_URL self item
  tbl.

End ModelInsert.

(** ** Naming conventions *)

Module Convention.

(** [s.endswith(suffix)]. *)
Fixpoint ends_with (suffix s : string) : bool :=
  if String.eqb s suffix then true
  else
    match s with
    | EmptyString => false
    | String _ rest => ends_with suffix rest
    end.

Definition insert_root : string := "servee/wysiwyg/insert/".

(** The template of the name [name] kept for one model of an application,
    and the one kept for the whole application. *)
Definition model_template (m : Model) (name : string) : string :=
  insert_root ++ app_label (_meta m) ++ "/" ++ module_name (_meta m)
    ++ "/_" ++ name ++ ".html".

Definition app_template (m : Model) (name : string) : string :=
  insert_root ++ app_label (_meta m) ++ "/_" ++ name ++ ".html".

(** A fallback chain for [name]: the model's template, the application's
    template, then a generic template under the insert root that carries
    the same name. *)
Definition fallback_chain (m : Model) (name : string) (chain : list string)
    : Prop :=
  exists generic,
    chain = [model_template m name; app_template m name; generic]
    /\ String.prefix insert_root generic = true
    /\ ends_with ("_" ++ name ++ ".html") generic = true.


End Convention.

Import Convention.

(** ** A photo gallery insert, to run the embedding on *)

Module Gallery.

(** A request: its path and whether its user is a member of staff. *)
Record Request : Type := {
  path : string;
  is_staff : bool
}.

(** An integer primary key written in decimal digits; anything else fails
    validation. *)
Definition digit (c : ascii) : option Z :=
  let n := nat_of_ascii c in
  if andb (48 <=? n)%nat (n <=? 57)%nat then Some (Z.of_nat (n - 48)) else None.

Fixpoint digits (acc : Z) (s : string) : option Z :=
  match s with
  | EmptyString => Some acc
  | String c rest =>
      match digit c with
      | Some d => digits (10 * acc + d) rest
      | None => None
      end
  end.

Definition int_field : Field :=
  {| to_python := fun raw =>
       match raw with
       | EmptyString => None
       | _ => digits 0 raw
       end |}.

Definition Photo : Model :=
  {| _meta := {| app_label := "gallery";
                 module_name := "photo";
                 pk_field := int_field;
                 self_references := [] |};
     _default_manager := {| get_query_set := AllObjects |} |}.

Definition photos : Table :=
  [ {| pk := 1; columns := [("title", "harbour")] |};
    {| pk := 2; columns := [("title", "market")] |};
    {| pk := 5; columns := [("title", "bridge")] |} ].

(** An admin site that lets staff through and answers others with 403. *)
Definition site : AdminSite Request :=
  {| name := "servee";
     admin_view := fun view request args =>
       if is_staff request then view request args
       else pure {| content := "Forbidden"; status_code := 403 |} |}.

(** Object ids without an underscore are what [unquote] leaves alone. *)
Definition unquote (s : string) : string := s.

(** A renderer that answers with the first path of the chain and the names
    of the context. *)
Definition render_to_response (templates : list string)
    (context : ModelInsert.Context Request) (request : Request)
    (tbl : Table) : Outcome Response :=
  match templates with
  | [] => Raise ValueError
  | first :: _ =>
      Return (HttpResponse
                (first ++ ":" ++ String.concat "," (map fst context)))
  end.

Definition PhotoInsert : ModelInsert.cls :=
  {| ModelInsert.__name__ := "PhotoInsert";
     ModelInsert.cls_ordering := Some ["title"];
     ModelInsert.cls_model := Some Photo |}.

(** The instance that [PhotoInsert(site)] builds. *)
Definition photo_insert : ModelInsert.t Request :=
  {| ModelInsert.base := BaseInsert.__init__ "PhotoInsert" site;
     ModelInsert.ordering := Some ["title"];
     ModelInsert.model := Photo;
     ModelInsert.item_panel_template :=
       [ "servee/wysiwyg/insert/gallery/photo/_panel.html";
         "servee/wysiwyg/insert/gallery/_panel.html";
         "servee/wysiwyg/insert/_panelt.html" ];
     ModelInsert.item_display_template :=
       [ "servee/wysiwyg/insert/gallery/photo/_list.html";
         "servee/wysiwyg/insert/gallery/_list.html";
         "servee/wysiwyg/insert/_item_list.html" ];
     ModelInsert.item_detail_template :=
       [ "servee/wysiwyg/insert/gallery/photo/_detail.html";
         "servee/wysiwyg/insert/gallery/_detail.html";
         "servee/wysiwyg/insert/_item_detail.html" ];
     ModelInsert.item_list_template :=
       [ "servee/wysiwyg/insert/gallery/photo/_list.html";
         "servee/wysiwyg/insert/gallery/_list.html";
         "servee/wysiwyg/insert/_item_list.html" ];
     ModelInsert.item_render_template :=
       [ "servee/wysiwyg/insert/gallery/photo/_render.html";
         "servee/wysiwyg/insert/gallery/_render.html";
         "servee/wysiwyg/insert/_item_render.html" ] |}.

Definition staff (p : string) : Request := {| path := p; is_staff := true |}.

(** A reverser that spells the view name and its arguments out. *)
Definition reverse (viewname : string) (args : list string)
    : Outcome string :=
  Return ("/" ++ viewname ++ "/" ++ String.concat "/" args).

(** A loader that finds every name; its template prints the keys of the
    dictionary. *)
Definition get_template (template_name : string)
    : Outcome ModelInsert.Template :=
  Return (fun dictionary _ =>
            Return (template_name ++ ":"
                      ++ String.concat "," (map fst dictionary))).




End Gallery.

(** The primary-key constraint of a table given in full. *)
Ltac solve_unique_pk :=
  unfold unique_pk; simpl; split;
  [ repeat (constructor; [simpl; intuition discriminate|]); constructor
  | repeat (constructor; [reflexivity|]); constructor ].

(** ** Strings *)

Lemma append_inv_head (p a b : string) : p ++ a = p ++ b -> a = b.
Proof.
  induction p as [|c p IH]; simpl; intros H.
  - exact H.
  - injection H as H. auto.
Qed.

(** ** The object-relational layer *)

Lemma has_pk_true (k : Z) (o : Instance) : has_pk k o = true <-> pk o = k.
Proof. unfold has_pk. apply Z.eqb_eq. Qed.

Lemma has_pk_false (k : Z) (o : Instance) : has_pk k o = false <-> pk o <> k.
Proof. unfold has_pk. apply Z.eqb_neq. Qed.

Lemma distinct_keys_filter (keep : Instance -> bool) (l : list Instance) :
  NoDup (map pk l) -> NoDup (map pk (filter keep l)).
Proof.
  induction l as [|a l IH]; simpl; intros H.
  - constructor.
  - inversion H as [|? ? Hnotin Hrest]; subst.
    destruct (keep a); simpl; auto.
    constructor; auto.
    intros Hin. apply Hnotin.
    apply in_map_iff in Hin. destruct Hin as [x [Hx Hin]].
    apply filter_In in Hin. apply in_map_iff. exists x.
    split; [exact Hx | exact (proj1 Hin)].
Qed.

Lemma unique_pk_filter (keep : Instance -> bool) (tbl : Table) :
  unique_pk tbl -> unique_pk (filter keep tbl).
Proof.
  intros [Hdistinct Hfit]. split.
  - apply distinct_keys_filter. exact Hdistinct.
  - rewrite Forall_forall in *. intros o Ho.
    apply filter_In in Ho. apply Hfit. exact (proj1 Ho).
Qed.

Lemma unique_pk_fits (tbl : Table) (o : Instance) :
  unique_pk tbl -> In o tbl -> fits_column (pk o) = true.
Proof.
  intros [_ Hfit] Hin. rewrite Forall_forall in Hfit. auto.
Qed.

Lemma objects_incl (qs : QuerySet) (tbl : Table) (o : Instance) :
  In o (objects qs tbl) -> In o tbl.
Proof.
  induction qs as [|keep qs IH|fields qs IH]; simpl; intros H; auto.
  apply filter_In in H. exact (IH (proj1 H)).
Qed.

Lemma unique_pk_objects (qs : QuerySet) (tbl : Table) :
  unique_pk tbl -> unique_pk (objects qs tbl).
Proof.
  intros H. induction qs as [|keep qs IH|fields qs IH]; simpl; auto.
  apply unique_pk_filter. exact IH.
Qed.

Lemma filter_has_pk_absent (k : Z) (l : list Instance) :
  (forall o, In o l -> pk o <> k) -> filter (has_pk k) l = [].
Proof.
  induction l as [|a l IH]; simpl; intros H; auto.
  assert (Ha : has_pk k a = false) by (apply has_pk_false; auto).
  rewrite Ha. auto.
Qed.

Lemma filter_has_pk_unique (k : Z) (l : list Instance) (o : Instance) :
  NoDup (map pk l) -> In o l -> pk o = k -> filter (has_pk k) l = [o].
Proof.
  induction l as [|a l IH]; simpl; intros Hu Hin Hk.
  - contradiction.
  - inversion Hu as [|? ? Hnotin Hrest]; subst.
    destruct Hin as [Heq|Hin].
    + subst a.
      assert (Ho : has_pk (pk o) o = true) by (apply has_pk_true; reflexivity).
      rewrite Ho. f_equal. apply filter_has_pk_absent.
      intros r Hr Hpk. apply Hnotin. rewrite <- Hpk. apply in_map. exact Hr.
    + assert (Ha : has_pk (pk o) a = false).
      { apply has_pk_false. intros Hpk. apply Hnotin. rewrite Hpk.
        apply in_map. exact Hin. }
      rewrite Ha. auto.
Qed.

Lemma get_found (qs : QuerySet) (k : Z) (tbl : Table) (o : Instance) :
  unique_pk tbl -> In o (objects qs tbl) -> pk o = k ->
  get qs k tbl = Return o.
Proof.
  intros Hu Hin Hk. unfold get.
  assert (Hfit : fits_column k = true).
  { rewrite <- Hk. apply (unique_pk_fits tbl); auto.
    eapply objects_incl; eauto. }
  rewrite Hfit.
  rewrite (filter_has_pk_unique k (objects qs tbl) o); auto.
  exact (proj1 (unique_pk_objects qs tbl Hu)).
Qed.

Lemma get_missing (qs : QuerySet) (k : Z) (tbl : Table) :
  fits_column k = true ->
  (forall o, In o (objects qs tbl) -> pk o <> k) ->
  get qs k tbl = Raise DoesNotExist.
Proof.
  intros Hfit H. unfold get. rewrite Hfit, filter_has_pk_absent; auto.
Qed.

Lemma get_overflow (qs : QuerySet) (k : Z) (tbl : Table) :
  fits_column k = false -> get qs k tbl = Raise OverflowError.
Proof. intros Hfit. unfold get. rewrite Hfit. reflexivity. Qed.

(** Whether a primary key is present among selected objects is decided by
    a search. *)
Lemma pk_present_or_absent (k : Z) (l : list Instance) :
  (exists o, In o l /\ pk o = k) \/ (forall o, In o l -> pk o <> k).
Proof.
  destruct (find (has_pk k) l) as [o|] eqn:Hf.
  - left. exists o. apply find_some in Hf. destruct Hf as [Hin Hk].
    split; auto. apply has_pk_true. exact Hk.
  - right. intros o Hin. apply has_pk_false.
    exact (find_none _ _ Hf o Hin).
Qed.

(** *** Deleting *)

Lemma doomed_key_true (doomed : list Z) (r : Instance) :
  doomed_key doomed r = true <-> In (pk r) doomed.
Proof.
  unfold doomed_key. rewrite existsb_exists. split.
  - intros [k [Hin Hk]]. apply Z.eqb_eq in Hk. congruence.
  - intros Hin. exists (pk r). split; [exact Hin | apply Z.eqb_refl].
Qed.

(** The collector only adds keys. *)
Lemma collect_keeps (m : Model) (rounds : nat) (doomed : list Z)
    (tbl : Table) (k : Z) :
  In k doomed -> In k (collect m rounds doomed tbl).
Proof.
  revert doomed. induction rounds as [|n IH]; intros doomed Hin; simpl.
  - exact Hin.
  - apply IH. apply in_or_app. left. exact Hin.
Qed.

(** A round that finds no row to add ends the collection. *)
Lemma collect_stable (m : Model) (rounds : nat) (doomed : list Z)
    (tbl : Table) :
  filter (fun r => cascades_from m doomed r && negb (doomed_key doomed r))
    tbl = [] ->
  collect m rounds doomed tbl = doomed.
Proof.
  intros Hnone. induction rounds as [|n IH]; simpl; auto.
  rewrite Hnone. simpl. rewrite app_nil_r. exact IH.
Qed.

Lemma set_null_pk (m : Model) (doomed : list Z) (l : list Instance) :
  map pk (map (set_null m doomed) l) = map pk l.
Proof. rewrite map_map. apply map_ext. reflexivity. Qed.

(** What is left after a deletion: rows of the keys that were not
    collected, and the deleted object's key is not among them. *)
Lemma delete_In (m : Model) (o r : Instance) (tbl : Table) :
  In r (delete m o tbl) ->
  pk r <> pk o /\ exists r0, In r0 tbl /\ pk r0 = pk r.
Proof.
  unfold delete. intros Hin.
  apply in_map_iff in Hin. destruct Hin as [r0 [Hr Hin]].
  apply filter_In in Hin. destruct Hin as [Hin Hkeep].
  apply negb_true_iff in Hkeep.
  assert (Hpk : pk r = pk r0) by (rewrite <- Hr; reflexivity).
  split.
  - intros Heq.
    assert (Hdoomed : doomed_key (collect m (length tbl) [pk o] tbl) r0
                      = true).
    { apply doomed_key_true. apply collect_keeps. left. congruence. }
    congruence.
  - exists r0. split; [exact Hin | congruence].
Qed.

Lemma unique_pk_delete (m : Model) (o : Instance) (tbl : Table) :
  unique_pk tbl -> unique_pk (delete m o tbl).
Proof.
  intros Hu. unfold delete.
  set (doomed := collect m (length tbl) [pk o] tbl).
  destruct (unique_pk_filter (fun r => negb (doomed_key doomed r)) tbl Hu)
    as [Hdistinct Hfit].
  split.
  - rewrite set_null_pk. exact Hdistinct.
  - rewrite Forall_forall in *. intros r Hr.
    apply in_map_iff in Hr. destruct Hr as [r0 [Hr Hin]].
    rewrite <- Hr. exact (Hfit r0 Hin).
Qed.

Lemma delete_length (m : Model) (o : Instance) (tbl : Table) :
  (length (delete m o tbl) <= length tbl)%nat.
Proof. unfold delete. rewrite length_map. apply filter_length_le. Qed.

Lemma filter_all {A : Type} (p : A -> bool) (l : list A) :
  (forall a, In a l -> p a = true) -> filter p l = l.
Proof.
  induction l as [|a l IH]; simpl; intros H; auto.
  rewrite (H a (or_introl eq_refl)). f_equal. auto.
Qed.

Lemma filter_none {A : Type} (p : A -> bool) (l : list A) :
  (forall a, In a l -> p a = false) -> filter p l = [].
Proof.
  induction l as [|a l IH]; simpl; intros H; auto.
  rewrite (H a (or_introl eq_refl)). auto.
Qed.

Lemma unreferenced_row (m : Model) (o r : Instance) (tbl : Table)
    (fk : ForeignKey) :
  unreferenced m o tbl = true -> In r tbl ->
  In fk (self_references (_meta m)) ->
  refers_to m fk (pk o) r = false.
Proof.
  unfold unreferenced, references. intros Hun Hr Hfk.
  rewrite forallb_forall in Hun. specialize (Hun r Hr).
  apply negb_true_iff in Hun.
  destruct (refers_to m fk (pk o) r) eqn:Href; auto.
  assert (Hex : existsb (fun fk => refers_to m fk (pk o) r)
                  (self_references (_meta m)) = true)
    by (apply existsb_exists; exists fk; auto).
  congruence.
Qed.

(** When no row references the object, deleting it removes its row and
    nothing else. *)
Lemma delete_unreferenced (m : Model) (o : Instance) (tbl : Table) :
  unreferenced m o tbl = true ->
  delete m o tbl = filter (fun r => negb (has_pk (pk o) r)) tbl.
Proof.
  intros Hun. unfold delete.
  assert (Hcollect : collect m (length tbl) [pk o] tbl = [pk o]).
  { apply collect_stable. apply filter_none. intros r Hr.
    apply andb_false_iff. left. unfold cascades_from.
    destruct (existsb _ (self_references (_meta m))) eqn:Hex; auto.
    apply existsb_exists in Hex. destruct Hex as [fk [Hfk Hc]].
    apply andb_true_iff in Hc. destruct Hc as [_ Hc]. simpl in Hc.
    rewrite (unreferenced_row m o r tbl fk Hun Hr Hfk) in Hc.
    discriminate. }
  rewrite Hcollect.
  assert (Hsame : forall r, doomed_key [pk o] r = has_pk (pk o) r).
  { intros r. unfold doomed_key, has_pk. simpl. apply orb_false_r. }
  rewrite (filter_ext _ _ (fun r => f_equal negb (Hsame r))).
  rewrite <- (map_id (filter _ tbl)) at 2.
  apply map_ext_in. intros r Hr. apply filter_In in Hr.
  destruct Hr as [Hr _]. destruct r as [k cols]. unfold set_null. simpl.
  f_equal. apply filter_all. intros c Hc. apply negb_true_iff.
  destruct (existsb _ (self_references (_meta m))) eqn:Hex; auto.
  apply existsb_exists in Hex. destruct Hex as [fk [Hfk Hc']].
  apply andb_true_iff in Hc'. destruct Hc' as [_ Hc'].
  pose proof (unreferenced_row m o _ tbl fk Hun Hr Hfk) as Href.
  unfold refers_to in Href. simpl in Href, Hc'.
  rewrite orb_false_r in Hc'.
  assert (Hex : existsb (fun c => String.eqb (fk_column fk) (fst c)
                                  && points_to m (pk o) (snd c)) cols
                = true)
    by (apply existsb_exists; exists c; auto).
  congruence.
Qed.


Lemma order_by_changes (fields : list string) (qs : QuerySet) :
  order_by fields qs <> qs.
Proof.
  unfold order_by. revert fields.
  induction qs as [|keep qs IH|fields' qs IH]; intros fields H;
    try discriminate.
  injection H as Hf Hq. exact (IH fields' Hq).
Qed.


(** ** [BaseInsert] *)

(** C3.  The six capability methods of [BaseInsert] are stubs, but none of
    them raises: on every instance (and for every item handed to
    [edit_item]) each call returns, as an ordinary value, the class
    [NotImplementedError] itself, so the outcome of the call is not the
    raising of [NotImplementedError]. *)
Theorem base_insert_stubs_return_the_class
    (HttpRequest : Type) (self : BaseInsert.t HttpRequest) (item : Value) :
  let stub := Return (VClass NotImplementedError) in
  (BaseInsert.items self = stub
   /\ BaseInsert.get_items self = stub
   /\ BaseInsert.add_item self = stub
   /\ BaseInsert.edit_item self item = stub
   /\ BaseInsert.content self = stub
   /\ BaseInsert.render_url self = stub)
  /\ BaseInsert.items self <> Raise NotImplementedError.
Proof.
  cbv zeta. split.
  - repeat split.
  - unfold BaseInsert.items. discriminate.
Qed.

(** ** [ModelInsert] *)

Section ModelInsertProperties.

Variable HttpRequest : Type.
Variable unquote : string -> string.
Variable render_to_response :
  list string -> ModelInsert.Context HttpRequest -> HttpRequest -> Table ->
  Outcome Response.

Local Abbreviation insert := (ModelInsert.t HttpRequest).
Local Abbreviation queryset := ModelInsert.queryset.
Local Abbreviation get_object := ModelInsert.get_object.
Local Abbreviation panel_view := (ModelInsert.panel_view render_to_response).
Local Abbreviation list_view := (ModelInsert.list_view render_to_response).
Local Abbreviation detail_view :=
  (ModelInsert.detail_view unquote render_to_response).
Local Abbreviation render_view :=
  (ModelInsert.render_view unquote render_to_response).
Local Abbreviation delete_view := (ModelInsert.delete_view unquote).
Local Abbreviation get_urls :=
  (ModelInsert.get_urls unquote render_to_response).
Local Abbreviation urls := (ModelInsert.urls unquote render_to_response).

Local Abbreviation default_query_set := ModelInsert.default_query_set.
Local Abbreviation pk_of := ModelInsert.pk_of.

(** The ordering is invisible to the selection of objects. *)
Lemma objects_queryset (self : insert) (arg : option (list string))
    (tbl : Table) :
  objects (queryset self arg) tbl = objects (default_query_set self) tbl.
Proof.
  unfold ModelInsert.queryset, ModelInsert.default_query_set.
  destruct (truthy (Some _)); reflexivity.
Qed.

Lemma get_object_invalid (self : insert) (object_id : string) (tbl : Table) :
  pk_of self object_id = None -> get_object self object_id tbl = Return None.
Proof.
  unfold ModelInsert.pk_of, ModelInsert.get_object. intros H. rewrite H.
  reflexivity.
Qed.

Lemma get_object_missing (self : insert) (object_id : string) (tbl : Table)
    (k : Z) :
  pk_of self object_id = Some k -> fits_column k = true ->
  (forall o, In o (objects (queryset self None) tbl) -> pk o <> k) ->
  get_object self object_id tbl = Return None.
Proof.
  unfold ModelInsert.pk_of, ModelInsert.get_object. intros H Hfit Hno.
  rewrite H. simpl.
  rewrite get_missing by assumption. reflexivity.
Qed.


(** [OverflowError] is not among the exceptions that [get_object]
    catches. *)
Lemma get_object_overflow (self : insert) (object_id : string) (tbl : Table)
    (k : Z) :
  pk_of self object_id = Some k -> fits_column k = false ->
  get_object self object_id tbl = Raise OverflowError.
Proof.
  unfold ModelInsert.pk_of, ModelInsert.get_object. intros H Hfit.
  rewrite H. simpl. rewrite get_overflow by exact Hfit. reflexivity.
Qed.

Lemma unique_pk_inj (tbl : Table) (a b : Instance) :
  unique_pk tbl -> In a tbl -> In b tbl -> pk a = pk b -> a = b.
Proof.
  intros [Hu _] Ha Hb Hpk.
  pose proof (filter_has_pk_unique (pk a) tbl a Hu Ha eq_refl) as Fa.
  pose proof (filter_has_pk_unique (pk a) tbl b Hu Hb (eq_sym Hpk)) as Fb.
  congruence.
Qed.

(** *** Template chains *)

(** C2.  [__init__] of a subclass with a model builds an instance whose
    five template attributes are lists of three paths that start with the
    model's template and the application's template of the same name.  The
    display, detail, list and render chains end in a generic template of
    that name ([_item_list], [_item_detail], [_item_list], [_item_render]);
    the panel chain ends in [_panelt.html], which does not carry the name
    [panel], so it is not a fallback chain for [panel]. *)
Theorem init_template_chains
    (cls_name : string) (ord : option (list string)) (m : Model)
    (site : AdminSite HttpRequest) :
  exists self,
    ModelInsert.__init__
      {| ModelInsert.__name__ := cls_name;
         ModelInsert.cls_ordering := ord;
         ModelInsert.cls_model := Some m |} site = Return self
    /\ ModelInsert.model self = m
    /\ ModelInsert.item_panel_template self =
         [ model_template m "panel"; app_template m "panel";
           "servee/wysiwyg/insert/_panelt.html" ]
    /\ ends_with "_panel.html" "servee/wysiwyg/insert/_panelt.html" = false
    /\ ~ fallback_chain m "panel" (ModelInsert.item_panel_template self)
    /\ fallback_chain m "list" (ModelInsert.item_display_template self)
    /\ fallback_chain m "detail" (ModelInsert.item_detail_template self)
    /\ fallback_chain m "list" (ModelInsert.item_list_template self)
    /\ fallback_chain m "render" (ModelInsert.item_render_template self).
Proof.
  eexists. split; [reflexivity|]. cbn [ModelInsert.model
    ModelInsert.item_panel_template ModelInsert.item_display_template
    ModelInsert.item_detail_template ModelInsert.item_list_template
    ModelInsert.item_render_template].
  split; [reflexivity|]. split; [reflexivity|]. split; [reflexivity|].
  split.
  - intros [generic [Hchain [_ Hend]]].
    apply (f_equal (fun l => nth 2 l EmptyString)) in Hchain.
    cbn [nth] in Hchain. subst generic. vm_compute in Hend. discriminate.
  - repeat split;
      (eexists; split; [reflexivity | split; reflexivity]).
Qed.

(** *** The query set *)

(** C5.  [get_items()] is [items()], which is [queryset()], which is the
    query set of the model's default manager, ordered by [self.ordering]
    when that is a non-empty sequence: the three calls return the same
    query set. *)
Theorem items_are_the_model_queryset (self : insert) :
  ModelInsert.get_items self = ModelInsert.items self
  /\ ModelInsert.items self = queryset self None
  /\ queryset self None =
       match ModelInsert.ordering self with
       | Some (field :: fields) =>
           order_by (field :: fields) (default_query_set self)
       | _ => default_query_set self
       end.
Proof.
  split; [reflexivity|]. split; [reflexivity|].
  unfold ModelInsert.queryset, ModelInsert.default_query_set. simpl.
  destruct (ModelInsert.ordering self) as [[|field fields]|]; reflexivity.
Qed.

(** C10.  [queryset] never unpacks [None]: with a falsy argument and
    [self.ordering = None] it returns the query set of the default manager
    as it is; it returns that query set with [order_by] applied, to the
    argument when that is non-empty and else to [self.ordering], exactly
    when one of the two is non-empty; and applying [order_by] is never the
    same as not applying it. *)
Theorem queryset_ordering_is_total
    (self : insert) (arg : option (list string)) :
  (truthy arg = false -> ModelInsert.ordering self = None ->
     queryset self arg = default_query_set self)
  /\ (truthy arg = true ->
        queryset self arg = order_by (or_empty arg) (default_query_set self))
  /\ (truthy arg = false -> truthy (ModelInsert.ordering self) = true ->
        queryset self arg =
          order_by (or_empty (ModelInsert.ordering self))
            (default_query_set self))
  /\ (truthy arg = false -> truthy (ModelInsert.ordering self) = false ->
        queryset self arg = default_query_set self)
  /\ ((exists fields,
          fields <> [] /\
          queryset self arg = order_by fields (default_query_set self))
      <-> truthy arg || truthy (ModelInsert.ordering self) = true).
Proof.
  unfold ModelInsert.queryset, ModelInsert.default_query_set.
  destruct arg as [[|a arg]|];
    destruct (ModelInsert.ordering self) as [[|f fs]|]; simpl;
    repeat split; intros; try discriminate; try reflexivity;
    try (eexists; split; [|reflexivity]; discriminate);
    match goal with
    | H : exists _, _ /\ _ |- _ =>
        destruct H as [fields [_ H]]; symmetry in H;
        exfalso; exact (order_by_changes _ _ H)
    end.
Qed.

(** *** Looking up an object *)

(** C8.  [get_object] does not keep what it documents on every object id:
    when the id validates to a key that does not fit the key column, no
    object of [queryset()] has that key, and still [get_object] does not
    return [None]; the look-up raises [OverflowError], which is not among
    the exceptions that [get_object] catches. *)
Theorem get_object_lets_overflow_through
    (self : insert) (object_id : string) (tbl : Table) (k : Z)
    (Hpk : unique_pk tbl)
    (Hid : pk_of self object_id = Some k)
    (Hfit : fits_column k = false) :
  (forall o, In o (objects (queryset self None) tbl) -> pk o <> k)
  /\ get_object self object_id tbl = Raise OverflowError.
Proof.
  split.
  - intros o Hin Heq. apply objects_incl in Hin.
    pose proof (unique_pk_fits tbl o Hpk Hin) as Ho. congruence.
  - apply (get_object_overflow self object_id tbl k); assumption.
Qed.

(** *** The views *)



(** C9.  When [get_object] returns [None] for the unquoted object id,
    [delete_view] raises [AttributeError] at [obj.delete()]: it does not
    answer, and the table stays as it was. *)
Theorem delete_view_fails_on_missing_object
    (self : insert) (request : HttpRequest) (object_id : string)
    (tbl : Table)
    (Hnone : get_object self (unquote object_id) tbl = Return None) :
  delete_view self request object_id tbl = (Raise AttributeError, tbl).
Proof.
  unfold ModelInsert.delete_view, and_then, reading. rewrite Hnone.
  reflexivity.
Qed.

(** *** URL patterns *)


(** C6.  Each of the five callables that [get_urls()] registers calls
    [self.admin_site.admin_view] on the corresponding view and applies the
    result to the arguments it was given; the property [urls] is
    [get_urls()]. *)
Theorem registered_views_go_through_admin_view (self : insert) :
  let site := BaseInsert.admin_site (ModelInsert.base self) in
  exists panel list_ detail render delete_,
    get_urls self = Return [panel; list_; detail; render; delete_]
    /\ (forall request args tbl,
          callback panel request args tbl =
            admin_view site (method1 (panel_view self)) request args tbl)
    /\ (forall request args tbl,
          callback list_ request args tbl =
            admin_view site (method1 (list_view self)) request args tbl)
    /\ (forall request args tbl,
          callback detail request args tbl =
            admin_view site (method2 (detail_view self)) request args tbl)
    /\ (forall request args tbl,
          callback render request args tbl =
            admin_view site (method2 (render_view self)) request args tbl)
    /\ (forall request args tbl,
          callback delete_ request args tbl =
            admin_view site (method2 (delete_view self)) request args tbl)
    /\ urls self = get_urls self.
Proof.
  cbv zeta. do 5 eexists. split; [reflexivity|].
  repeat split.
Qed.

End ModelInsertProperties.

(** ** The properties on the photo gallery *)

Import Gallery.

Example init_photo_insert :
  ModelInsert.__init__ PhotoInsert site = Return photo_insert.
Proof. reflexivity. Qed.

Example init_without_model :
  ModelInsert.__init__
    {| ModelInsert.__name__ := "Bare";
       ModelInsert.cls_ordering := None;
       ModelInsert.cls_model := None |} site = Raise AttributeError.
Proof. reflexivity. Qed.

Example format_arity :
  format "%s_%s_list" ["gallery"] = Raise TypeError
  /\ format "%s_%s_list" ["gallery"; "photo"; "x"] = Raise TypeError
  /\ format "%s_%s_list" ["gallery"; "photo"] = Return "gallery_photo_list".
Proof. repeat split. Qed.

Example photo_queryset :
  ModelInsert.queryset photo_insert None = OrderBy ["title"] AllObjects
  /\ ModelInsert.queryset photo_insert (Some []) =
       OrderBy ["title"] AllObjects
  /\ ModelInsert.queryset photo_insert (Some ["-pk"]) =
       OrderBy ["-pk"] AllObjects.
Proof. repeat split. Qed.

(** The registered delete callable answers a visitor who is not staff with
    the site's 403 and deletes nothing; a member of staff deletes. *)
Example delete_through_the_site :
  match ModelInsert.get_urls unquote render_to_response photo_insert with
  | Return [_; _; _; _; delete_] =>
      callback delete_ {| path := "/2/delete/"; is_staff := false |} ["2"]
        photos =
        (Return {| content := "Forbidden"; status_code := 403 |}, photos)
      /\ fst (callback delete_ (staff "/2/delete/") ["2"] photos) =
           Return (HttpResponse "Deleted")
      /\ map pk (snd (callback delete_ (staff "/2/delete/") ["2"] photos)) =
           [1%Z; 5%Z]
  | _ => False
  end.
Proof. vm_compute. repeat split. Qed.

(** A table that breaks the primary-key constraint makes [get] raise. *)
Example get_on_duplicate_keys :
  get AllObjects 1 [ {| pk := 1; columns := [] |};
                     {| pk := 1; columns := [("title", "copy")] |} ] =
    Raise MultipleObjectsReturned.
Proof. reflexivity. Qed.

Lemma get_object_overflow_on_photos :
  unique_pk photos
  /\ ModelInsert.pk_of photo_insert "9223372036854775808" =
       Some 9223372036854775808%Z
  /\ fits_column 9223372036854775808 = false
  /\ ModelInsert.get_object photo_insert "9223372036854775808" photos =
       Raise OverflowError.
Proof.
  assert (Hu : unique_pk photos) by solve_unique_pk.
  split; [exact Hu|]. split; [reflexivity|]. split; [reflexivity|].
  destruct (get_object_lets_overflow_through Request photo_insert
              "9223372036854775808" photos 9223372036854775808%Z Hu
              eq_refl eq_refl) as [_ Hraise].
  exact Hraise.
Defined.




Lemma delete_view_on_missing_photo :
  ModelInsert.get_object photo_insert (unquote "3") photos = Return None
  /\ ModelInsert.delete_view unquote photo_insert
       (staff "/servee/photoinsert/3/delete/") "3" photos =
     (Raise AttributeError, photos).
Proof.
  split; [reflexivity|].
  apply (delete_view_fails_on_missing_object Request unquote photo_insert
           (staff "/servee/photoinsert/3/delete/") "3" photos).
  reflexivity.
Defined.

(** ** More on the object-relational layer *)

Lemma filter_comm {A : Type} (p q : A -> bool) (l : list A) :
  filter p (filter q l) = filter q (filter p l).
Proof.
  induction l as [|a l IH]; simpl; auto.
  destruct (q a) eqn:Hq; destruct (p a) eqn:Hp; simpl;
    rewrite ?Hq, ?Hp, IH; reflexivity.
Qed.

(** Filtering the table first or the selection afterwards is the same. *)
Lemma objects_filter (qs : QuerySet) (p : Instance -> bool) (tbl : Table) :
  objects qs (filter p tbl) = filter p (objects qs tbl).
Proof.
  induction qs as [|keep qs IH|fields qs IH]; simpl; auto.
  rewrite IH. apply filter_comm.
Qed.

Lemma filter_has_pk_without (k k' : Z) (l : list Instance) :
  k <> k' ->
  filter (has_pk k) (filter (fun r => negb (has_pk k' r)) l) =
    filter (has_pk k) l.
Proof.
  intros Hne. induction l as [|a l IH]; simpl; auto.
  destruct (has_pk k' a) eqn:Ho; simpl.
  - apply has_pk_true in Ho.
    assert (Ha : has_pk k a = false) by (apply has_pk_false; congruence).
    rewrite Ha. exact IH.
  - destruct (has_pk k a); rewrite IH; reflexivity.
Qed.

(** Taking the row of a stored object out of a table with distinct keys
    cuts that one row out and keeps the rows around it in place. *)
Lemma without_split (o : Instance) (l : list Instance) :
  NoDup (map pk l) -> In o l ->
  exists before after,
    l = (before ++ o :: after)%list
    /\ filter (fun r => negb (has_pk (pk o) r)) l = (before ++ after)%list.
Proof.
  induction l as [|a l IH]; simpl; intros Hu Hin.
  - contradiction.
  - inversion Hu as [|? ? Hnotin Hrest]; subst.
    destruct Hin as [Heq|Hin].
    + subst a. exists [], l. split; [reflexivity|].
      assert (Ho : has_pk (pk o) o = true) by (apply has_pk_true; reflexivity).
      rewrite Ho. simpl. apply filter_all. intros r Hr.
      apply negb_true_iff. apply has_pk_false.
      intros Hpk. apply Hnotin. rewrite <- Hpk. apply in_map. exact Hr.
    + destruct (IH Hrest Hin) as [before [after [Htbl Hdel]]].
      exists (a :: before), after. split.
      * simpl. f_equal. exact Htbl.
      * assert (Ha : has_pk (pk o) a = false).
        { apply has_pk_false. intros Hpk. apply Hnotin. rewrite Hpk.
          apply in_map. exact Hin. }
        rewrite Ha. simpl. f_equal. exact Hdel.
Qed.

(** ** More on strings *)

Lemma ends_with_cons (suffix t : string) (c : ascii) :
  ends_with suffix t = true -> ends_with suffix (String c t) = true.
Proof.
  intros H. cbn [ends_with]. rewrite H.
  destruct (String.eqb (String c t) suffix); reflexivity.
Qed.

Lemma ends_with_append (suffix p t : string) :
  ends_with suffix t = true -> ends_with suffix (p ++ t) = true.
Proof.
  intros H. induction p as [|c p IH]; [exact H|].
  change (String c p ++ t) with (String c (p ++ t)).
  apply ends_with_cons. exact IH.
Qed.

Lemma prefix_append (p t : string) : String.prefix p (p ++ t) = true.
Proof.
  induction p as [|c p IH]; simpl.
  - destruct t; reflexivity.
  - destruct (ascii_dec c c) as [_|Hne]; [exact IH | contradiction].
Qed.

(** A path that is spelled out up to variable parts ends as its last
    literal part does. *)
Ltac solve_ends_with :=
  repeat first [ reflexivity
               | apply ends_with_cons
               | apply ends_with_append ].

(** Facts on single characters, checked on each of the 256. *)
Lemma lower_char_not_upper (c : ascii) : is_upper (lower_char c) = false.
Proof. destruct c as [[] [] [] [] [] [] [] []]; reflexivity. Qed.

Lemma lower_char_idempotent (c : ascii) :
  lower_char (lower_char c) = lower_char c.
Proof. destruct c as [[] [] [] [] [] [] [] []]; reflexivity. Qed.

Lemma lower_upper_char (c : ascii) : lower_char (upper_char c) = lower_char c.
Proof. destruct c as [[] [] [] [] [] [] [] []]; reflexivity. Qed.

Lemma upper_char_classes (c : ascii) :
  is_lower c = true ->
  is_lower (upper_char c) = false /\ is_upper (upper_char c) = true.
Proof.
  destruct c as [[] [] [] [] [] [] [] []]; intros H;
    first [discriminate H | split; reflexivity].
Qed.

Lemma lower_char_classes (c : ascii) :
  is_lower c = false -> is_upper c = true ->
  is_lower (lower_char c) = true.
Proof.
  destruct c as [[] [] [] [] [] [] [] []]; intros H1 H2;
    first [discriminate H1 | discriminate H2 | reflexivity].
Qed.

Lemma lower_length (s : string) : String.length (lower s) = String.length s.
Proof. induction s as [|c s IH]; simpl; auto. Qed.

Lemma lower_idempotent (s : string) : lower (lower s) = lower s.
Proof.
  induction s as [|c s IH]; simpl; auto.
  rewrite lower_char_idempotent, IH. reflexivity.
Qed.

Lemma lower_has_no_upper (s : string) :
  Forall (fun c => is_upper c = false) (list_ascii_of_string (lower s)).
Proof.
  induction s as [|c s IH]; simpl; constructor; auto.
  apply lower_char_not_upper.
Qed.

Lemma title_from_length (b : bool) (s : string) :
  String.length (title_from b s) = String.length s.
Proof.
  revert b. induction s as [|c s IH]; intros b; simpl; auto.
  destruct (is_lower c); [|destruct (is_upper c)]; simpl; rewrite IH;
    reflexivity.
Qed.

Lemma lower_title_from (b : bool) (s : string) :
  lower (title_from b s) = lower s.
Proof.
  revert b. induction s as [|c s IH]; intros b; simpl; auto.
  destruct (is_lower c); [|destruct (is_upper c)]; simpl; rewrite IH;
    destruct b; rewrite ?lower_upper_char, ?lower_char_idempotent;
    reflexivity.
Qed.

Lemma title_from_idempotent (b : bool) (s : string) :
  title_from b (title_from b s) = title_from b s.
Proof.
  revert b. induction s as [|c s IH]; intros b; simpl; auto.
  destruct (is_lower c) eqn:Hl; [|destruct (is_upper c) eqn:Hu].
  - destruct b; simpl.
    + rewrite Hl, IH. reflexivity.
    + destruct (upper_char_classes c Hl) as [Hl' Hu'].
      rewrite Hl', Hu', IH. reflexivity.
  - destruct b; simpl.
    + rewrite (lower_char_classes c Hl Hu), IH. reflexivity.
    + rewrite Hl, Hu, IH. reflexivity.
  - simpl. rewrite Hl, Hu, IH. reflexivity.
Qed.

(** ** More on [BaseInsert] *)

(** X10.  [base_url()] is the class name in lower case: it reads as the
    class name once both are lowered, it has the length of the name, it
    holds no upper-case ASCII letter, and lowering it again changes
    nothing. *)
Theorem base_url_is_a_lowercase_slug
    (HttpRequest : Type) (self : BaseInsert.t HttpRequest) :
  lower (BaseInsert.base_url self) = lower (BaseInsert.class_name self)
  /\ String.length (BaseInsert.base_url self) =
       String.length (BaseInsert.class_name self)
  /\ Forall (fun c => is_upper c = false)
       (list_ascii_of_string (BaseInsert.base_url self))
  /\ lower (BaseInsert.base_url self) = BaseInsert.base_url self.
Proof.
  unfold BaseInsert.base_url. split; [apply lower_idempotent|].
  split; [apply lower_length|].
  split; [apply lower_has_no_upper | apply lower_idempotent].
Qed.

(** ** More on [ModelInsert] *)

Section ModelInsertBehaviour.

Variable HttpRequest : Type.
Variable unquote : string -> string.
Variable render_to_response :
  list string -> ModelInsert.Context HttpRequest -> HttpRequest -> Table ->
  Outcome Response.
Variable reverse : string -> list string -> Outcome string.
Variable get_template : string -> Outcome ModelInsert.Template.
Variable MEDIA_URL : string.
Variable STATIC_URL : string.

Local Abbreviation insert := (ModelInsert.t HttpRequest).
Local Abbreviation queryset := ModelInsert.queryset.
Local Abbreviation get_object := ModelInsert.get_object.
Local Abbreviation panel_view := (ModelInsert.panel_view render_to_response).
Local Abbreviation list_view := (ModelInsert.list_view render_to_response).
Local Abbreviation detail_view :=
  (ModelInsert.detail_view unquote render_to_response).
Local Abbreviation render_view :=
  (ModelInsert.render_view unquote render_to_response).
Local Abbreviation delete_view := (ModelInsert.delete_view unquote).
Local Abbreviation get_urls :=
  (ModelInsert.get_urls unquote render_to_response).
Local Abbreviation list_url := (ModelInsert.list_url reverse).
Local Abbreviation render_url := (ModelInsert.render_url reverse).
Local Abbreviation render :=
  (ModelInsert.render get_template MEDIA_URL STATIC_URL).
Local Abbreviation default_query_set := ModelInsert.default_query_set.
Local Abbreviation pk_of := ModelInsert.pk_of.

(** [get_object] in terms of the matches of the validated key. *)
Lemma get_object_cases (self : insert) (object_id : string) (tbl : Table) :
  get_object self object_id tbl =
    match pk_of self object_id with
    | None => Return None
    | Some k =>
        if fits_column k then
          match filter (has_pk k) (objects (default_query_set self) tbl)
          with
          | [] => Return None
          | [o] => Return (Some o)
          | _ :: _ :: _ => Raise MultipleObjectsReturned
          end
        else Raise OverflowError
    end.
Proof.
  unfold ModelInsert.get_object, ModelInsert.pk_of.
  destruct (to_python _ object_id) as [k|]; simpl; [|reflexivity].
  unfold get. rewrite objects_queryset.
  destruct (fits_column k); [|reflexivity].
  destruct (filter _ _) as [|a [|b l]]; reflexivity.
Qed.

Lemma delete_view_cases (self : insert) (request : HttpRequest)
    (object_id : string) (tbl : Table) :
  delete_view self request object_id tbl =
    match get_object self (unquote object_id) tbl with
    | Return (Some o) =>
        (Return (HttpResponse "Deleted"),
         delete (ModelInsert.model self) o tbl)
    | Return None => (Raise AttributeError, tbl)
    | Raise e => (Raise e, tbl)
    end.
Proof.
  unfold ModelInsert.delete_view, and_then, reading.
  destruct (get_object self (unquote object_id) tbl) as [[o|]|e];
    reflexivity.
Qed.

Lemma get_object_unknown (self : insert) (object_id : string) (tbl : Table) :
  (pk_of self object_id = None \/
   exists k, pk_of self object_id = Some k /\ fits_column k = true /\
     forall o, In o (objects (default_query_set self) tbl) -> pk o <> k) ->
  get_object self object_id tbl = Return None.
Proof.
  rewrite get_object_cases. intros [Hinv|[k [Hk [Hfit Hno]]]].
  - rewrite Hinv. reflexivity.
  - rewrite Hk, Hfit, filter_has_pk_absent by exact Hno. reflexivity.
Qed.

Lemma get_object_stored (self : insert) (object_id : string) (tbl : Table)
    (k : Z) (o : Instance) :
  unique_pk tbl -> pk_of self object_id = Some k ->
  In o (objects (default_query_set self) tbl) -> pk o = k ->
  get_object self object_id tbl = Return (Some o).
Proof.
  intros Hu Hid Hin Hk. rewrite get_object_cases, Hid.
  assert (Hfit : fits_column k = true).
  { rewrite <- Hk. apply (unique_pk_fits tbl); auto.
    eapply objects_incl; eauto. }
  rewrite Hfit, (filter_has_pk_unique k _ o); auto.
  exact (proj1 (unique_pk_objects _ tbl Hu)).
Qed.

(** *** Looking up an object, whatever the table *)

(** X1.  An object that [get_object] returns is stored: it is a row of the
    table, it is selected by the default manager, and its primary key is
    the value that the object id validates to. *)
Theorem get_object_result_is_stored
    (self : insert) (object_id : string) (tbl : Table) (o : Instance)
    (Hget : get_object self object_id tbl = Return (Some o)) :
  In o tbl
  /\ In o (objects (default_query_set self) tbl)
  /\ pk_of self object_id = Some (pk o).
Proof.
  rewrite get_object_cases in Hget.
  destruct (pk_of self object_id) as [k|]; [|discriminate].
  destruct (fits_column k); [|discriminate].
  destruct (filter (has_pk k) (objects (default_query_set self) tbl))
    as [|a [|b l]] eqn:Hf; try discriminate.
  injection Hget as ->.
  assert (Hin : In o (filter (has_pk k)
                        (objects (default_query_set self) tbl)))
    by (rewrite Hf; left; reflexivity).
  apply filter_In in Hin. destruct Hin as [Hin Hk].
  apply has_pk_true in Hk. repeat split.
  - eapply objects_incl; eauto.
  - exact Hin.
  - congruence.
Qed.

(** X2.  [DoesNotExist] and [ValidationError] never leave [get_object],
    but two other exceptions of the look-up do: [OverflowError], exactly
    when the object id validates to a key that does not fit the key
    column, and [MultipleObjectsReturned], exactly when it validates to a
    key that fits and that at least two selected objects carry. *)
Theorem get_object_raises_on_overflow_or_duplicates
    (self : insert) (object_id : string) (tbl : Table) :
  get_object self object_id tbl <> Raise DoesNotExist
  /\ get_object self object_id tbl <> Raise ValidationError
  /\ (get_object self object_id tbl = Raise OverflowError <->
        exists k, pk_of self object_id = Some k /\ fits_column k = false)
  /\ (get_object self object_id tbl = Raise MultipleObjectsReturned <->
        exists k,
          pk_of self object_id = Some k
          /\ fits_column k = true
          /\ (2 <= length (filter (has_pk k)
                             (objects (default_query_set self) tbl)))%nat).
Proof.
  rewrite get_object_cases.
  assert (Hsame : forall k k' : Z, Some k' = Some k -> k' = k)
    by (intros k k' H; injection H as ->; reflexivity).
  destruct (pk_of self object_id) as [k|].
  - destruct (fits_column k) eqn:Hfit.
    + destruct (filter (has_pk k) _) as [|a [|b l]] eqn:Hf;
        (split; [discriminate|]); (split; [discriminate|]); split; split.
      * discriminate.
      * intros [k' [Hk' Hfit']]. apply Hsame in Hk'. congruence.
      * discriminate.
      * intros [k' [Hk' [_ Hlen]]]. apply Hsame in Hk'. subst k'.
        rewrite Hf in Hlen. simpl in Hlen. lia.
      * discriminate.
      * intros [k' [Hk' Hfit']]. apply Hsame in Hk'. congruence.
      * discriminate.
      * intros [k' [Hk' [_ Hlen]]]. apply Hsame in Hk'. subst k'.
        rewrite Hf in Hlen. simpl in Hlen. lia.
      * discriminate.
      * intros [k' [Hk' Hfit']]. apply Hsame in Hk'. congruence.
      * intros _. exists k. split; [reflexivity|]. split; [exact Hfit|].
        rewrite Hf. simpl. lia.
      * reflexivity.
    + split; [discriminate|]. split; [discriminate|]. split; split.
      * intros _. exists k. split; [reflexivity | exact Hfit].
      * reflexivity.
      * discriminate.
      * intros [k' [Hk' [Hfit' _]]]. apply Hsame in Hk'. congruence.
  - split; [discriminate|]. split; [discriminate|]. split; split.
    + discriminate.
    + intros [k [Hk _]]. discriminate.
    + discriminate.
    + intros [k [Hk _]]. discriminate.
Qed.

(** X17.  As long as the object id does not validate to a key outside
    the key column, [get_object] on a table that satisfies the primary-key
    constraint never raises: it returns [None] exactly when the id fails
    validation or no object of [queryset()] has the key, and otherwise the
    matching object, which is the only one. *)
Theorem get_object_none_iff_invalid_or_missing
    (self : insert) (object_id : string) (tbl : Table)
    (Hpk : unique_pk tbl)
    (Hfit : forall k, pk_of self object_id = Some k ->
                      fits_column k = true) :
  (exists obj, get_object self object_id tbl = Return obj)
  /\ (get_object self object_id tbl = Return None <->
        pk_of self object_id = None \/
        exists k, pk_of self object_id = Some k /\
          forall o, In o (objects (queryset self None) tbl) -> pk o <> k)
  /\ (forall k o,
        pk_of self object_id = Some k ->
        In o (objects (queryset self None) tbl) -> pk o = k ->
        get_object self object_id tbl = Return (Some o)
        /\ forall o', In o' (objects (queryset self None) tbl) ->
             pk o' = k -> o' = o).
Proof.
  assert (Hfound : forall k o,
            pk_of self object_id = Some k ->
            In o (objects (queryset self None) tbl) -> pk o = k ->
            get_object self object_id tbl = Return (Some o)).
  { intros k o Hk Hin Ho. apply (get_object_stored self _ tbl k o); auto.
    rewrite <- (objects_queryset HttpRequest self None). exact Hin. }
  assert (Hmissing : forall k,
            pk_of self object_id = Some k ->
            (forall o, In o (objects (queryset self None) tbl) ->
               pk o <> k) ->
            get_object self object_id tbl = Return None).
  { intros k Hk Hno. apply get_object_unknown. right. exists k.
    split; [exact Hk|]. split; [exact (Hfit k Hk)|].
    intros o Hin. apply Hno.
    rewrite (objects_queryset HttpRequest self None). exact Hin. }
  split; [|split].
  - destruct (pk_of self object_id) as [k|] eqn:Hk.
    + destruct (pk_present_or_absent k (objects (queryset self None) tbl))
        as [[o [Hin Ho]]|Hno].
      * exists (Some o). eapply Hfound; eauto.
      * exists None. eapply Hmissing; eauto.
    + exists None. apply get_object_unknown. left. exact Hk.
  - split.
    + intros Hnone. destruct (pk_of self object_id) as [k|] eqn:Hk; auto.
      right. exists k. split; [reflexivity|].
      destruct (pk_present_or_absent k (objects (queryset self None) tbl))
        as [[o [Hin Ho]]|Hno]; [|exact Hno].
      rewrite (Hfound k o eq_refl Hin Ho) in Hnone. discriminate.
    + intros [Hinv|[k [Hk Hno]]].
      * apply get_object_unknown. left. exact Hinv.
      * eapply Hmissing; eauto.
  - intros k o Hk Hin Ho. split.
    + eapply Hfound; eauto.
    + intros o' Hin' Ho'.
      apply (unique_pk_inj tbl); auto.
      * eapply objects_incl; eauto.
      * eapply objects_incl; eauto.
      * congruence.
Qed.

(** *** What the views do to the table *)

(** X4.  [delete_view] never adds a key: every row left carries the key of
    a row that was in the table, the table does not grow, a call that
    raises leaves the table untouched, and a call that returns answers
    [HttpResponse("Deleted")]. *)
Theorem delete_view_never_adds
    (self : insert) (request : HttpRequest) (object_id : string)
    (tbl : Table) :
  (forall r, In r (snd (delete_view self request object_id tbl)) ->
     exists r0, In r0 tbl /\ pk r0 = pk r)
  /\ (length (snd (delete_view self request object_id tbl))
        <= length tbl)%nat
  /\ (forall e, fst (delete_view self request object_id tbl) = Raise e ->
        snd (delete_view self request object_id tbl) = tbl)
  /\ (forall response,
        fst (delete_view self request object_id tbl) = Return response ->
        response = HttpResponse "Deleted").
Proof.
  rewrite delete_view_cases.
  destruct (get_object self (unquote object_id) tbl) as [[o|]|e]; simpl;
    repeat split; auto; try discriminate;
    try (intros r Hr; exists r; split; [exact Hr | reflexivity]).
  - intros r Hr. apply delete_In in Hr. exact (proj2 Hr).
  - apply delete_length.
  - intros response H. injection H as <-. reflexivity.
Qed.

(** X5.  The views keep the primary-key constraint: after any of the five
    views the keys of the table are still unique. *)
Theorem views_keep_unique_keys
    (self : insert) (request : HttpRequest) (object_id : string)
    (tbl : Table) (Hpk : unique_pk tbl) :
  unique_pk (snd (panel_view self request tbl))
  /\ unique_pk (snd (list_view self request tbl))
  /\ unique_pk (snd (detail_view self request object_id tbl))
  /\ unique_pk (snd (render_view self request object_id tbl))
  /\ unique_pk (snd (delete_view self request object_id tbl)).
Proof.
  split; [exact Hpk|]. split; [exact Hpk|].
  split; [|split].
  - unfold ModelInsert.detail_view, and_then, reading.
    destruct (get_object self (unquote object_id) tbl); exact Hpk.
  - unfold ModelInsert.render_view, and_then, reading.
    destruct (get_object self (unquote object_id) tbl); exact Hpk.
  - rewrite delete_view_cases.
    destruct (get_object self (unquote object_id) tbl) as [[o|]|e]; simpl;
      auto.
    apply unique_pk_delete. exact Hpk.
Qed.

(** X6.  A successful [delete_view] of an object that no row references
    cuts exactly one row out of the table: the rows before and after the
    deleted object stay as they are, in their order. *)
Theorem delete_view_removes_one_row
    (self : insert) (request : HttpRequest) (object_id : string)
    (tbl : Table) (k : Z) (o : Instance)
    (Hpk : unique_pk tbl)
    (Hid : pk_of self (unquote object_id) = Some k)
    (Hin : In o (objects (default_query_set self) tbl))
    (Hk : pk o = k)
    (Hun : unreferenced (ModelInsert.model self) o tbl = true) :
  exists before after,
    tbl = (before ++ o :: after)%list
    /\ snd (delete_view self request object_id tbl) =
         (before ++ after)%list
    /\ length tbl =
         S (length (snd (delete_view self request object_id tbl))).
Proof.
  rewrite delete_view_cases.
  rewrite (get_object_stored self _ tbl k o) by assumption. simpl.
  rewrite delete_unreferenced by exact Hun.
  destruct (without_split o tbl (proj1 Hpk) (objects_incl _ _ _ Hin))
    as [before [after [Htbl Hdel]]].
  exists before, after. split; [exact Htbl|]. split; [exact Hdel|].
  rewrite Hdel. rewrite Htbl at 1. rewrite !length_app. simpl. lia.
Qed.

(** X7.  Deleting is final: after a successful [delete_view] the same
    object id looks up [None], a second [delete_view] raises
    [AttributeError] and changes nothing, and [detail_view] renders with
    [object] set to [None]. *)
Theorem delete_view_then_lookup
    (self : insert) (request again : HttpRequest) (object_id : string)
    (tbl : Table) (k : Z) (o : Instance)
    (Hpk : unique_pk tbl)
    (Hid : pk_of self (unquote object_id) = Some k)
    (Hin : In o (objects (default_query_set self) tbl))
    (Hk : pk o = k) :
  get_object self (unquote object_id)
    (snd (delete_view self request object_id tbl)) = Return None
  /\ delete_view self again object_id
       (snd (delete_view self request object_id tbl)) =
     (Raise AttributeError, snd (delete_view self request object_id tbl))
  /\ detail_view self again object_id
       (snd (delete_view self request object_id tbl)) =
     (render_to_response (ModelInsert.item_detail_template self)
        [("insert", ModelInsert.CInsert self);
         ("object", ModelInsert.CObject None)] again
        (snd (delete_view self request object_id tbl)),
      snd (delete_view self request object_id tbl)).
Proof.
  assert (Hafter : snd (delete_view self request object_id tbl) =
                   delete (ModelInsert.model self) o tbl).
  { rewrite delete_view_cases.
    rewrite (get_object_stored self _ tbl k o) by assumption.
    reflexivity. }
  rewrite Hafter.
  assert (Hnone : get_object self (unquote object_id)
                    (delete (ModelInsert.model self) o tbl) = Return None).
  { apply get_object_unknown. right. exists k. split; [exact Hid|]. split.
    - rewrite <- Hk. apply (unique_pk_fits tbl); auto.
      eapply objects_incl; eauto.
    - intros r Hr. apply objects_incl in Hr. apply delete_In in Hr.
      rewrite <- Hk. exact (proj1 Hr). }
  split; [exact Hnone|]. split.
  - rewrite delete_view_cases, Hnone. reflexivity.
  - unfold ModelInsert.detail_view, and_then, reading. rewrite Hnone.
    reflexivity.
Qed.

(** X8.  Deleting an object that no row references leaves every other
    look-up as it was: after a successful [delete_view], [get_object] of an
    object id that does not validate to the deleted key returns what it
    returned before. *)
Theorem delete_view_leaves_other_lookups
    (self : insert) (request : HttpRequest) (object_id other_id : string)
    (tbl : Table) (k : Z) (o : Instance)
    (Hpk : unique_pk tbl)
    (Hid : pk_of self (unquote object_id) = Some k)
    (Hin : In o (objects (default_query_set self) tbl))
    (Hk : pk o = k)
    (Hun : unreferenced (ModelInsert.model self) o tbl = true)
    (Hother : pk_of self other_id <> Some k) :
  get_object self other_id (snd (delete_view self request object_id tbl)) =
    get_object self other_id tbl.
Proof.
  rewrite delete_view_cases.
  rewrite (get_object_stored self _ tbl k o) by assumption. simpl.
  rewrite delete_unreferenced by exact Hun.
  rewrite !get_object_cases.
  destruct (pk_of self other_id) as [k'|]; [|reflexivity].
  rewrite objects_filter.
  rewrite filter_has_pk_without; [reflexivity|].
  intros Heq. apply Hother. congruence.
Qed.

(** X9.  An object id that fails validation, or that validates to a key
    that fits the key column and that no selected object carries, is not an
    error for [detail_view] and [render_view]: they render their template
    chain with [object] set to [None]. *)
Theorem detail_and_render_of_unknown_object
    (self : insert) (request : HttpRequest) (object_id : string)
    (tbl : Table)
    (Hunknown :
       pk_of self (unquote object_id) = None \/
       exists k, pk_of self (unquote object_id) = Some k /\
         fits_column k = true /\
         forall o, In o (objects (default_query_set self) tbl) ->
           pk o <> k) :
  detail_view self request object_id tbl =
    (render_to_response (ModelInsert.item_detail_template self)
       [("insert", ModelInsert.CInsert self);
        ("object", ModelInsert.CObject None)] request tbl,
     tbl)
  /\ render_view self request object_id tbl =
       (render_to_response (ModelInsert.item_render_template self)
          [("insert", ModelInsert.CInsert self);
           ("object", ModelInsert.CObject None)] request tbl,
        tbl).
Proof.
  unfold ModelInsert.detail_view, ModelInsert.render_view, and_then, reading.
  rewrite (get_object_unknown self _ tbl Hunknown). split; reflexivity.
Qed.

(** *** Building an instance *)

(** X11.  [__init__] needs the model: without one it raises
    [AttributeError]; with one it returns an instance of that model that
    keeps the ordering of the class and the admin site, and whose
    [base_url()] is the lowered class name. *)
Theorem init_needs_a_model
    (c : ModelInsert.cls) (site : AdminSite HttpRequest) :
  match ModelInsert.cls_model c with
  | None => ModelInsert.__init__ c site = Raise AttributeError
  | Some m =>
      exists self,
        ModelInsert.__init__ c site = Return self
        /\ ModelInsert.model self = m
        /\ ModelInsert.ordering self = ModelInsert.cls_ordering c
        /\ BaseInsert.admin_site (ModelInsert.base self) = site
        /\ BaseInsert.base_url (ModelInsert.base self) =
             lower (ModelInsert.__name__ c)
  end.
Proof.
  destruct c as [cls_name ord [m|]]; simpl; [|reflexivity].
  eexists. split; [reflexivity|]. repeat split.
Qed.

(** X12.  On every instance that [__init__] builds, the display chain and
    the list chain are the same three paths, and each path of each of the
    five chains lies under [servee/wysiwyg/insert/] and ends in [.html],
    whatever the application label and the module name are. *)
Theorem init_chains_share_root_and_extension
    (c : ModelInsert.cls) (site : AdminSite HttpRequest) (self : insert)
    (Hinit : ModelInsert.__init__ c site = Return self) :
  ModelInsert.item_display_template self =
    ModelInsert.item_list_template self
  /\ Forall
       (fun chain =>
          length chain = 3%nat
          /\ Forall
               (fun p =>
                  String.prefix insert_root p = true
                  /\ ends_with ".html" p = true)
               chain)
       [ ModelInsert.item_panel_template self;
         ModelInsert.item_display_template self;
         ModelInsert.item_detail_template self;
         ModelInsert.item_list_template self;
         ModelInsert.item_render_template self ].
Proof.
  destruct c as [cls_name ord [m|]]; simpl in Hinit; [|discriminate].
  injection Hinit as <-. split; [reflexivity|].
  cbn [ModelInsert.item_panel_template ModelInsert.item_display_template
       ModelInsert.item_detail_template ModelInsert.item_list_template
       ModelInsert.item_render_template].
  repeat match goal with
         | |- Forall _ (_ :: _) => constructor
         | |- Forall _ [] => constructor
         | |- _ /\ _ => split
         | |- length _ = _ => reflexivity
         | |- String.prefix _ _ = true =>
             first [reflexivity | exact (prefix_append insert_root _)]
         | |- ends_with _ _ = true => solve_ends_with
         end.
Qed.

(** X13.  [nav_title()] of a model insert is the module name with only the
    case of its letters changed: same length, same text once lowered, and
    already in title case. *)
Theorem nav_title_only_changes_case (self : insert) :
  String.length (ModelInsert.nav_title self) =
    String.length (module_name (_meta (ModelInsert.model self)))
  /\ lower (ModelInsert.nav_title self) =
       lower (module_name (_meta (ModelInsert.model self)))
  /\ title (ModelInsert.nav_title self) = ModelInsert.nav_title self.
Proof.
  unfold ModelInsert.nav_title, title.
  split; [apply title_from_length|].
  split; [apply lower_title_from | apply title_from_idempotent].
Qed.

(** *** URLs *)

(** X14.  The five registered patterns can be told apart: their names are
    pairwise different and so are their regular expressions, whatever the
    application label and the module name are. *)
Theorem registered_patterns_are_distinct (self : insert) :
  exists registered,
    get_urls self = Return registered
    /\ NoDup (map url_name registered)
    /\ NoDup (map regex registered).
Proof.
  eexists. split; [reflexivity|]. cbn [map patterns url url_name regex].
  split.
  - repeat (constructor;
            [ cbn [In]; intros H;
              repeat (destruct H as [H|H];
                      [ apply append_inv_head in H; injection H as H;
                        apply append_inv_head in H; discriminate H |]);
              exact H |]).
    constructor.
  - repeat (constructor;
            [ cbn [In]; intros H;
              repeat (destruct H as [H|H]; [discriminate H|]); exact H |]).
    constructor.
Qed.

(** X15.  [list_url()] and [render_url(object_id)] reverse the names under
    which [get_urls()] registers [list_view] and [render_view], in the
    namespace of the admin site; [list_url] passes no argument and
    [render_url] passes the object id alone. *)
Theorem url_helpers_reverse_registered_names
    (self : insert) (object_id : string) :
  exists panel list_ detail render_ delete_,
    get_urls self = Return [panel; list_; detail; render_; delete_]
    /\ list_url self =
         reverse
           (name (BaseInsert.admin_site (ModelInsert.base self)) ++ ":"
              ++ url_name list_) []
    /\ render_url self object_id =
         reverse
           (name (BaseInsert.admin_site (ModelInsert.base self)) ++ ":"
              ++ url_name render_) [object_id].
Proof.
  do 5 eexists. split; [reflexivity|]. split; reflexivity.
Qed.

(** *** [render] *)

(** X16.  [render(item)] never returns a rendering: it hands the whole
    chain [item_render_template] to [get_template], which loads a template
    by one name and finds none for a list.  The unguarded look-up comes
    first: a key that does not fit the key column raises [OverflowError], a
    key that no selected object carries raises [DoesNotExist], and when the
    object is there (on a table with unique keys) the call raises
    [TemplateDoesNotExist]. *)
Theorem render_never_returns
    (self : insert) (item : Z) (tbl : Table) :
  (forall text, render self item tbl <> Return text)
  /\ (fits_column item = false -> render self item tbl = Raise OverflowError)
  /\ (fits_column item = true ->
      (forall o, In o (objects (default_query_set self) tbl) ->
         pk o <> item) ->
      render self item tbl = Raise DoesNotExist)
  /\ (unique_pk tbl ->
      forall o, In o (objects (default_query_set self) tbl) ->
        pk o = item ->
        render self item tbl = Raise TemplateDoesNotExist).
Proof.
  unfold ModelInsert.render, ModelInsert.call_get_template.
  split; [|split; [|split]].
  - intros text.
    destruct (get _ item tbl); simpl; discriminate.
  - intros Hfit. rewrite get_overflow by exact Hfit. reflexivity.
  - intros Hfit Hno. rewrite get_missing by assumption. reflexivity.
  - intros Hpk o Hin Hk.
    rewrite (get_found _ item tbl o) by assumption. reflexivity.
Qed.

End ModelInsertBehaviour.

(** ** More properties on the photo gallery *)

Lemma stored_photo_lookup :
  ModelInsert.get_object photo_insert "5" photos =
    Return (Some {| pk := 5; columns := [("title", "bridge")] |})
  /\ In {| pk := 5; columns := [("title", "bridge")] |} photos
  /\ ModelInsert.pk_of photo_insert "5" = Some 5%Z.
Proof.
  assert (Hget : ModelInsert.get_object photo_insert "5" photos =
                 Return (Some {| pk := 5; columns := [("title", "bridge")] |}))
    by reflexivity.
  split; [exact Hget|].
  destruct (get_object_result_is_stored Request photo_insert "5" photos _
              Hget) as [Hin [_ Hid]].
  split; [exact Hin | exact Hid].
Defined.

Lemma photo_views_keep_unique_keys :
  unique_pk photos
  /\ unique_pk
       (snd (ModelInsert.delete_view unquote photo_insert
               (staff "/servee/photoinsert/2/delete/") "2" photos)).
Proof.
  assert (Hu : unique_pk photos) by solve_unique_pk.
  split; [exact Hu|].
  destruct (views_keep_unique_keys Request unquote render_to_response
              photo_insert (staff "/servee/photoinsert/2/delete/") "2"
              photos Hu) as [_ [_ [_ [_ Hdelete]]]].
  exact Hdelete.
Defined.

Lemma delete_view_cuts_one_photo :
  unique_pk photos
  /\ exists before after,
       photos =
         (before ++ {| pk := 2; columns := [("title", "market")] |}
            :: after)%list
       /\ snd (ModelInsert.delete_view unquote photo_insert
                 (staff "/servee/photoinsert/2/delete/") "2" photos) =
            (before ++ after)%list.
Proof.
  assert (Hu : unique_pk photos) by solve_unique_pk.
  split; [exact Hu|].
  destruct (delete_view_removes_one_row Request unquote photo_insert
              (staff "/servee/photoinsert/2/delete/") "2" photos 2%Z
              {| pk := 2; columns := [("title", "market")] |}
              Hu eq_refl) as [before [after [Htbl [Hdel _]]]].
  - simpl. auto.
  - reflexivity.
  - reflexivity.
  - exists before, after. split; assumption.
Defined.

Lemma second_delete_of_a_photo :
  unique_pk photos
  /\ ModelInsert.delete_view unquote photo_insert
       (staff "/servee/photoinsert/2/delete/") "2"
       (snd (ModelInsert.delete_view unquote photo_insert
               (staff "/servee/photoinsert/2/delete/") "2" photos)) =
     (Raise AttributeError,
      [ {| pk := 1; columns := [("title", "harbour")] |};
        {| pk := 5; columns := [("title", "bridge")] |} ]).
Proof.
  assert (Hu : unique_pk photos) by solve_unique_pk.
  split; [exact Hu|].
  destruct (delete_view_then_lookup Request unquote render_to_response
              photo_insert (staff "/servee/photoinsert/2/delete/")
              (staff "/servee/photoinsert/2/delete/") "2" photos 2%Z
              {| pk := 2; columns := [("title", "market")] |}
              Hu eq_refl) as [_ [Hsecond _]].
  - simpl. auto.
  - reflexivity.
  - exact Hsecond.
Defined.

Lemma other_photo_after_delete :
  unique_pk photos
  /\ ModelInsert.get_object photo_insert "5"
       (snd (ModelInsert.delete_view unquote photo_insert
               (staff "/servee/photoinsert/2/delete/") "2" photos)) =
     Return (Some {| pk := 5; columns := [("title", "bridge")] |}).
Proof.
  assert (Hu : unique_pk photos) by solve_unique_pk.
  split; [exact Hu|].
  rewrite (delete_view_leaves_other_lookups Request unquote photo_insert
             (staff "/servee/photoinsert/2/delete/") "2" "5" photos 2%Z
             {| pk := 2; columns := [("title", "market")] |}
             Hu eq_refl).
  - reflexivity.
  - simpl. auto.
  - reflexivity.
  - reflexivity.
  - discriminate.
Defined.

Lemma detail_of_unknown_photos :
  ModelInsert.detail_view unquote render_to_response photo_insert
    (staff "/servee/photoinsert/two/detail/") "two" photos =
    (Return (HttpResponse
       "servee/wysiwyg/insert/gallery/photo/_detail.html:insert,object"),
     photos)
  /\ ModelInsert.render_view unquote render_to_response photo_insert
       (staff "/servee/photoinsert/9/render/") "9" photos =
     (Return (HttpResponse
        "servee/wysiwyg/insert/gallery/photo/_render.html:insert,object"),
      photos).
Proof.
  destruct (detail_and_render_of_unknown_object Request unquote
              render_to_response photo_insert
              (staff "/servee/photoinsert/two/detail/") "two" photos)
    as [Hdetail _].
  { left. reflexivity. }
  destruct (detail_and_render_of_unknown_object Request unquote
              render_to_response photo_insert
              (staff "/servee/photoinsert/9/render/") "9" photos)
    as [_ Hrender].
  { right. exists 9%Z. split; [reflexivity|]. split; [reflexivity|].
    simpl. intros o H. intuition (subst; simpl; discriminate). }
  split.
  - rewrite Hdetail. reflexivity.
  - rewrite Hrender. reflexivity.
Defined.

Lemma photo_chains_share_root_and_extension :
  ModelInsert.__init__ PhotoInsert site = Return photo_insert
  /\ ModelInsert.item_display_template photo_insert =
       ModelInsert.item_list_template photo_insert
  /\ length (ModelInsert.item_panel_template photo_insert) = 3%nat.
Proof.
  assert (Hinit : ModelInsert.__init__ PhotoInsert site = Return photo_insert)
    by reflexivity.
  split; [exact Hinit|].
  destruct (init_chains_share_root_and_extension Request PhotoInsert site
              photo_insert Hinit) as [Hsame Hchains].
  split; [exact Hsame|].
  inversion Hchains as [|chain rest [Hlen _] _]. exact Hlen.
Defined.

Lemma render_of_photos :
  unique_pk photos
  /\ ModelInsert.render get_template "/media/" "/static/" photo_insert 5
       photos = Raise TemplateDoesNotExist
  /\ ModelInsert.render get_template "/media/" "/static/" photo_insert 3
       photos = Raise DoesNotExist
  /\ ModelInsert.render get_template "/media/" "/static/" photo_insert
       9223372036854775808 photos = Raise OverflowError.
Proof.
  assert (Hu : unique_pk photos) by solve_unique_pk.
  split; [exact Hu|].
  destruct (render_never_returns Request get_template "/media/" "/static/"
              photo_insert 5%Z photos) as [_ [_ [_ Hfound]]].
  destruct (render_never_returns Request get_template "/media/" "/static/"
              photo_insert 3%Z photos) as [_ [_ [Hmissing _]]].
  destruct (render_never_returns Request get_template "/media/" "/static/"
              photo_insert 9223372036854775808%Z photos)
    as [_ [Hlarge _]].
  split; [|split].
  - apply (Hfound Hu {| pk := 5; columns := [("title", "bridge")] |}).
    + simpl. auto.
    + reflexivity.
  - apply Hmissing; [reflexivity|].
    simpl. intros o H. intuition (subst; simpl; discriminate).
  - apply Hlarge. reflexivity.
Defined.

Lemma get_object_on_photos :
  unique_pk photos
  /\ ModelInsert.get_object photo_insert "2" photos =
       Return (Some {| pk := 2; columns := [("title", "market")] |})
  /\ ModelInsert.get_object photo_insert "3" photos = Return None
  /\ ModelInsert.get_object photo_insert "two" photos = Return None.
Proof.
  assert (Hu : unique_pk photos) by solve_unique_pk.
  split; [exact Hu|].
  destruct (get_object_none_iff_invalid_or_missing
              Request photo_insert "2" photos Hu) as [_ [_ Hfound]].
  { intros k Hk. injection Hk as <-. reflexivity. }
  destruct (get_object_none_iff_invalid_or_missing
              Request photo_insert "3" photos Hu) as [_ [Hmissing _]].
  { intros k Hk. injection Hk as <-. reflexivity. }
  destruct (get_object_none_iff_invalid_or_missing
              Request photo_insert "two" photos Hu) as [_ [Hinvalid _]].
  { intros k Hk. discriminate Hk. }
  split; [|split].
  - apply (Hfound 2%Z); [reflexivity | simpl; auto | reflexivity].
  - apply Hmissing. right. exists 3%Z. split; [reflexivity|].
    simpl. intros o H. intuition (subst; simpl; discriminate).
  - apply Hinvalid. left. reflexivity.
Defined.
